(** * The Sports Market: the timeframe pricing engine

    A shallow embedding of [timeframe_algorithm.py] (class
    [TimeframeAlgorithm]), of the standalone engines [monthly_algorithm.py],
    [weekly_algorithm.py] and [timeframe_test_algorithm.py], and of the game
    log and the archetype sorting of [sports_market_project], together with
    the properties the design document states about them.

    Number model.  The pricing engine is embedded twice.

    In the modules named after the source classes Python [float]s are read
    as real numbers ([R]): every decimal literal of the source is the exact
    decimal it denotes and the four operations are exact.  Of the behaviour
    of binary64 floats this model keeps the one exception the arithmetic of
    the engine can raise by itself: [x ** 2] raises OverflowError once the
    square is out of the range of a float.  The general theorems are proved
    over this model.  Where the rounding of binary64 arithmetic could break a
    statement (a strict inequality across one unit in the last place, an
    equality that needs exact arithmetic, a result at the edge of the float
    range), the statement is restricted to a range of magnitudes or carries
    a slack; the proofs themselves are about the real-number model.

    In module [Binary64] the functions of [TimeframeAlgorithm] are written
    once more over primitive binary64 floats, with the comparisons, the
    conversions and the exceptions of CPython.  That model is evaluated on
    concrete inputs, where the code departs from real arithmetic.

    Python exceptions are explicit: a function that can raise returns a
    [result].  Stat tuples are Python sequences of any length, so they are
    lists and seven-way unpacking can fail; the dictionaries of the source
    always carry the same seven keys and are records. *)

From Stdlib Require Import Reals Lra Lia ZArith List String Bool.
From Stdlib Require Import Permutation.
From Stdlib Require PrimFloat SpecFloat FloatOps.
Import ListNotations.

(* Decimal literals of floats denote the nearest binary64 value. *)
Set Warnings "-inexact-float".

Local Open Scope string_scope.
Local Open Scope R_scope.

(** ** Python values and exceptions *)

Inductive exn : Type :=
| ValueError (msg : string)   (* raise ValueError(msg), math domain error *)
| UnpackError                 (* the ValueError of a failed tuple unpacking *)
| IndexError                  (* tuple index out of range *)
| ZeroDivisionError           (* division by zero *)
| OverflowError.              (* a float result out of range *)

Inductive result (A : Type) : Type :=
| Ok (a : A)
| Raise (e : exn).
Arguments Ok {A} a.
Arguments Raise {A} e.

Definition bind {A B : Type} (m : result A) (f : A -> result B) : result B :=
  match m with
  | Ok a => f a
  | Raise e => Raise e
  end.

Notation "x <- m ;; k" := (bind m (fun x => k))
  (at level 61, m at next level, right associativity).
Notation "' p <- m ;; k" := (bind m (fun p => k))
  (at level 61, p pattern, m at next level, right associativity).

Fixpoint mapM {A B : Type} (f : A -> result B) (l : list A) : result (list B) :=
  match l with
  | [] => Ok []
  | a :: l' => b <- f a ;; bs <- mapM f l' ;; Ok (b :: bs)
  end.

(** [x / y] on floats. *)
Definition py_div (x y : R) : result R :=
  if Req_dec_T y 0 then Raise ZeroDivisionError else Ok (x / y).

(** The least magnitude that no longer rounds to a binary64 float: halfway
    between the largest float and [2^1024]. *)
Definition float_overflow : R := 2 ^ 1024 - 2 ^ 970.

(** [x ** 2] on floats: OverflowError once the square is out of range. *)
Definition py_pow2 (x : R) : result R :=
  if Rlt_dec (x ^ 2) float_overflow then Ok (x ^ 2) else Raise OverflowError.

(** [math.sqrt(x)]. *)
Definition math_sqrt (x : R) : result R :=
  if Rlt_dec x 0 then Raise (ValueError "math domain error") else Ok (sqrt x).

(** [t[i]] on a tuple. *)
Definition getitem (t : list R) (i : nat) : result R :=
  match nth_error t i with
  | Some x => Ok x
  | None => Raise IndexError
  end.

(** [a, b, c, d, e, f, g = t]. *)
Definition unpack7 (t : list R) : result (R * R * R * R * R * R * R) :=
  match t with
  | [a; b; c; d; e; f; g] => Ok (a, b, c, d, e, f, g)
  | _ => Raise UnpackError
  end.

(** An archetype argument is [None] or a string. *)
Definition archetype : Type := option string.

(** [player_archetype == s]. *)
Definition arch_eq (player_archetype : archetype) (s : string) : bool :=
  match player_archetype with
  | Some a => String.eqb a s
  | None => false
  end.

(** [not player_archetype]: true for [None] and for the empty string. *)
Definition arch_not (player_archetype : archetype) : bool :=
  match player_archetype with
  | Some a => String.eqb a ""
  | None => true
  end.

Infix "==" := arch_eq (at level 70, no associativity).
Infix "=s" := String.eqb (at level 70, no associativity).

(** The seven keys of every dictionary of the engine. *)
Inductive key : Type :=
| Kpts | Kreb | Kast | Kto | Kstocks | Kthreepm | Kts.

(** A dictionary ['pts': _, 'reb': _, 'ast': _, 'to': _, 'stocks': _,
    'threepm': _, 'ts%': _], fields in insertion order. *)
Record dict : Type := mkdict {
  v_pts : R; v_reb : R; v_ast : R; v_to : R;
  v_stocks : R; v_threepm : R; v_ts : R
}.

(** [d[k]]. *)
Definition get (d : dict) (k : key) : R :=
  match k with
  | Kpts => v_pts d | Kreb => v_reb d | Kast => v_ast d | Kto => v_to d
  | Kstocks => v_stocks d | Kthreepm => v_threepm d | Kts => v_ts d
  end.

(** [d[k] = v]. *)
Definition set (d : dict) (k : key) (v : R) : dict :=
  match k with
  | Kpts => mkdict v (v_reb d) (v_ast d) (v_to d) (v_stocks d) (v_threepm d) (v_ts d)
  | Kreb => mkdict (v_pts d) v (v_ast d) (v_to d) (v_stocks d) (v_threepm d) (v_ts d)
  | Kast => mkdict (v_pts d) (v_reb d) v (v_to d) (v_stocks d) (v_threepm d) (v_ts d)
  | Kto => mkdict (v_pts d) (v_reb d) (v_ast d) v (v_stocks d) (v_threepm d) (v_ts d)
  | Kstocks => mkdict (v_pts d) (v_reb d) (v_ast d) (v_to d) v (v_threepm d) (v_ts d)
  | Kthreepm => mkdict (v_pts d) (v_reb d) (v_ast d) (v_to d) (v_stocks d) v (v_ts d)
  | Kts => mkdict (v_pts d) (v_reb d) (v_ast d) (v_to d) (v_stocks d) (v_threepm d) v
  end.

Infix "!!" := get (at level 20, no associativity).

(** [d.keys()], in insertion order. *)
Definition keys : list key := [Kpts; Kreb; Kast; Kto; Kstocks; Kthreepm; Kts].

(** [sum(xs)]: starts from 0 and adds from the left. *)
Definition sum (xs : list R) : R := fold_left Rplus xs 0.

(** [max(xs)] on a sequence; ValueError on an empty one. *)
Definition py_max (xs : list R) : result R :=
  match xs with
  | [] => Raise (ValueError "max() arg is an empty sequence")
  | x :: xs' => Ok (fold_left Rmax xs' x)
  end.

(** [xs.index(v)]: the first position holding [v]. *)
Fixpoint index (xs : list R) (v : R) : result nat :=
  match xs with
  | [] => Raise (ValueError "x is not in list")
  | x :: xs' =>
      if Req_dec_T x v then Ok 0%nat else i <- index xs' v ;; Ok (S i)
  end.

(** [names[i]] on a list of keys. *)
Definition getname (names : list key) (i : nat) : result key :=
  match nth_error names i with
  | Some k => Ok k
  | None => Raise IndexError
  end.

(** [[stat * c for stat in projected]]. *)
Definition scale (c : R) (projected : list R) : list R :=
  map (fun stat => stat * c) projected.

(** The audit record both [simulate_*] functions return. *)
Record PricingResult : Type := mkresult {
  projected_stats : list R;
  standard_deviations : dict;
  actual_averages : list R;
  z_scores : dict;
  pps : R;
  dis : R;
  raw_delta : R;
  dampened_delta : R;
  new_price : R;
  price_change_pct : R;
  old_price : R;
  timeframe : string;
  num_games : Z
}.

(** ** [TimeframeAlgorithm] *)

Module TimeframeAlgorithm.

(** The loop [for i in range(len(season_avg)):
      projected.append(0.5 * season_avg[i] + 0.5 * recent_avg[i])]. *)
Definition blend (season_avg recent_avg : list R) : result (list R) :=
  mapM (fun i =>
          s <- getitem season_avg i ;;
          r <- getitem recent_avg i ;;
          Ok (0.5 * s + 0.5 * r))
       (seq 0 (List.length season_avg)).

Definition calculate_projected_stats (season_avg recent_avg : list R)
    (timeframe : string) (use_2023_stats : bool)
    (player_archetype : archetype) : result (list R) :=
  projected <-
    (if timeframe =s "weekly" then blend season_avg recent_avg
     else if timeframe =s "monthly" then
       projected <- blend season_avg recent_avg ;;
       Ok (if player_archetype == "Superstars" then scale 1.0212 projected
           else if player_archetype == "Elite Shooters" then scale 1.002 projected
           else if player_archetype == "Elite Defenders" then scale 0.99685 projected
           else if player_archetype == "Elite Playmakers" then scale 1.02 projected
           else if player_archetype == "Rebounding Machines" then scale 0.999 projected
           else if player_archetype == "Turnover Prone" then scale 0.9885 projected
           else if player_archetype == "One Dimensional" then scale 1.008 projected
           else if player_archetype == "Versatile" then scale 1.0325 projected
           else if player_archetype == "Role Players" then scale 1.0035 projected
           else if player_archetype == "High Volume Scorers" then scale 1.001 projected
           else if player_archetype == "High Efficiency" then scale 1.0008 projected
           else projected)
     else if timeframe =s "season" then
       if use_2023_stats then Ok season_avg else Ok season_avg
     else
       Raise (ValueError "Invalid timeframe. Use 'weekly', 'monthly', or 'season'")) ;;
  Ok (if (player_archetype == "Superstars") && (timeframe =s "weekly")
      then scale 1.035 projected
      else if (player_archetype == "Elite Playmakers") && (timeframe =s "weekly")
      then scale 1.035 projected
      else if (player_archetype == "Versatile") && (timeframe =s "weekly")
      then scale 1.045 projected
      else if (player_archetype == "One Dimensional") && (timeframe =s "weekly")
      then scale 1.0105 projected
      else if (player_archetype == "Role Players") && (timeframe =s "weekly")
      then scale 1.01 projected
      else if (player_archetype == "Turnover Prone") && (timeframe =s "weekly")
      then scale 0.98 projected
      else if (player_archetype == "Rebounding Machines") && (timeframe =s "weekly")
      then scale 0.985 projected
      else if (player_archetype == "High Volume Scorers") && (timeframe =s "weekly")
      then scale 0.995 projected
      else if (player_archetype == "Bench Warmers") && (timeframe =s "weekly")
      then scale 1.003 projected
      else if (player_archetype == "Elite Shooters") && (timeframe =s "weekly")
      then scale 0.9975 projected
      else projected).

Definition _get_weekly_alphas (player_archetype : archetype)
    (projected_stats : list R) : result dict :=
  let default_alphas := mkdict 1.418 0.945 0.945 0.958 0.958 0.958 0.07 in
  if arch_not player_archetype then Ok default_alphas
  else if player_archetype == "Superstars" then
    Ok (mkdict 1.6 1.1 1.1 0.958 0.958 0.958 0.07)
  else if player_archetype == "Versatile" then
    Ok (mkdict 1.702 1.134 1.134 1.150 1.150 1.150 0.084)
  else if player_archetype == "Elite Playmakers" then
    Ok (mkdict 1.418 0.945 1.2 0.958 0.958 0.958 0.07)
  else if player_archetype == "High Volume Scorers" then
    Ok (mkdict 1.3 0.945 0.945 0.958 0.958 0.958 0.07)
  else if player_archetype == "Rebounding Machines" then
    Ok (mkdict 1.418 0.85 0.945 0.958 0.958 0.958 0.07)
  else if player_archetype == "Bench Warmers" then
    Ok (mkdict 1.021 0.680 0.680 0.689 0.689 0.689 0.050)
  else if player_archetype == "Turnover Prone" then
    Ok (mkdict 1.418 0.945 0.945 1.1 0.958 0.958 0.07)
  else if player_archetype == "One Dimensional" then
    '(pts, reb, ast, to, stocks, threepm, ts_pct) <- unpack7 projected_stats ;;
    let stats := [pts; reb; ast; to; stocks; threepm] in
    let stat_names := [Kpts; Kreb; Kast; Kto; Kstocks; Kthreepm] in
    m <- py_max stats ;;
    max_index <- index stats m ;;
    signature_stat <- getname stat_names max_index ;;
    let alphas := default_alphas in
    Ok (set alphas signature_stat (alphas !! signature_stat * 1.08))
  else if player_archetype == "Role Players" then
    Ok (mkdict 1.489 0.992 0.992 1.006 1.006 1.006 0.074)
  else Ok default_alphas.

(** Every path of the source function returns before the second cascade
    that follows the first one in the file; that unreachable text (a copy of
    the weekly cascade) is not part of the function's behaviour. *)
Definition _get_monthly_alphas (player_archetype : archetype) : dict :=
  let default_alphas := mkdict 0.809 0.539 0.539 0.547 0.547 0.547 0.07 in
  if arch_not player_archetype then default_alphas
  else if player_archetype == "Superstars" then
    mkdict 1.011 0.674 0.674 0.684 0.684 0.684 0.088
  else if player_archetype == "Elite Shooters" then
    mkdict 0.833 0.555 0.555 0.563 0.563 0.563 0.072
  else if player_archetype == "Elite Playmakers" then
    mkdict 0.971 0.647 0.647 0.656 0.656 0.656 0.084
  else if player_archetype == "Turnover Prone" then
    mkdict 0.769 0.512 0.512 0.520 0.520 0.520 0.067
  else if player_archetype == "One Dimensional" then
    mkdict 0.890 0.593 0.593 0.602 0.602 0.602 0.077
  else if player_archetype == "Versatile" then
    mkdict 1.011 0.674 0.674 0.684 0.684 0.684 0.088
  else if player_archetype == "Role Players" then
    mkdict 0.849 0.566 0.566 0.574 0.574 0.574 0.074
  else default_alphas.

Definition calculate_standard_deviations (projected_stats : list R)
    (timeframe : string) (player_archetype : archetype) : result dict :=
  '(pts, reb, ast, to, stocks, threepm, ts_pct) <- unpack7 projected_stats ;;
  alphas <-
    (if timeframe =s "weekly" then
       _get_weekly_alphas player_archetype projected_stats
     else if timeframe =s "monthly" then
       Ok (_get_monthly_alphas player_archetype)
     else Ok (mkdict 0.794 0.529 0.529 0.537 0.537 0.537 0.07)) ;;
  s_pts <- math_sqrt (Rmax pts 0.1) ;;
  s_reb <- math_sqrt (Rmax reb 0.1) ;;
  s_ast <- math_sqrt (Rmax ast 0.1) ;;
  s_to <- math_sqrt (Rmax to 0.1) ;;
  s_stocks <- math_sqrt (Rmax stocks 0.1) ;;
  s_threepm <- math_sqrt (Rmax threepm 0.1) ;;
  Ok (mkdict (alphas !! Kpts * s_pts)
             (alphas !! Kreb * s_reb)
             (alphas !! Kast * s_ast)
             (alphas !! Kto * s_to)
             (alphas !! Kstocks * s_stocks)
             (alphas !! Kthreepm * s_threepm)
             (alphas !! Kts)).

Definition calculate_actual_averages (actual_totals : list R)
    (num_games : Z) : result (list R) :=
  mapM (fun total => py_div total (IZR num_games)) actual_totals.

Definition calculate_z_scores (actual_avg projected_stats : list R)
    (std_devs : dict) : result dict :=
  '(pts, reb, ast, to, stocks, threepm, ts_pct) <- unpack7 actual_avg ;;
  '(proj_pts, proj_reb, proj_ast, proj_to, proj_stocks, proj_threepm,
    proj_ts_pct) <- unpack7 projected_stats ;;
  z_pts <- py_div (pts - proj_pts) (std_devs !! Kpts) ;;
  z_reb <- py_div (reb - proj_reb) (std_devs !! Kreb) ;;
  z_ast <- py_div (ast - proj_ast) (std_devs !! Kast) ;;
  z_to <- py_div (proj_to - to) (std_devs !! Kto) ;;
  z_stocks <- py_div (stocks - proj_stocks) (std_devs !! Kstocks) ;;
  z_threepm <- py_div (threepm - proj_threepm) (std_devs !! Kthreepm) ;;
  z_ts <- py_div (ts_pct - proj_ts_pct) (std_devs !! Kts) ;;
  Ok (mkdict z_pts z_reb z_ast z_to z_stocks z_threepm z_ts).

Definition _get_archetype_weights (player_archetype : archetype) : dict :=
  if player_archetype == "Superstars" then
    mkdict 0.35 0.125 0.125 0.075 0.125 0.10 0.10
  else if player_archetype == "Elite Shooters" then
    mkdict 0.45 0.15 0.15 0.05 0.10 0.05 0.05
  else if player_archetype == "Elite Defenders" then
    mkdict 0.45 0.15 0.15 0.05 0.10 0.05 0.05
  else if player_archetype == "High Volume Scorers" then
    mkdict 0.425 0.125 0.125 0.05 0.075 0.10 0.10
  else if player_archetype == "Elite Playmakers" then
    mkdict 0.375 0.15 0.225 0.05 0.10 0.05 0.05
  else if player_archetype == "Rebounding Machines" then
    mkdict 0.375 0.15 0.225 0.05 0.10 0.05 0.05
  else if player_archetype == "Bench Warmers" then
    mkdict 0.20 0.175 0.175 0.05 0.15 0.10 0.15
  else if player_archetype == "High Efficiency" then
    mkdict 0.45 0.125 0.15 0.05 0.10 0.05 0.075
  else if player_archetype == "Turnover Prone" then
    mkdict 0.45 0.15 0.15 0.025 0.10 0.05 0.075
  else if player_archetype == "One Dimensional" then
    mkdict 0.35 0.175 0.175 0.05 0.125 0.03 0.095
  else if player_archetype == "Versatile" then
    mkdict 0.35 0.125 0.125 0.075 0.125 0.10 0.10
  else if player_archetype == "Role Players" then
    mkdict 0.425 0.175 0.175 0.05 0.075 0.05 0.05
  else mkdict 0.45 0.15 0.15 0.05 0.10 0.05 0.05.

(** The weight vector [calculate_pps] selects. *)
Definition pps_weights (player_archetype : archetype) : dict :=
  let default_weights := mkdict 0.45 0.15 0.15 0.05 0.10 0.05 0.05 in
  if arch_not player_archetype then default_weights
  else _get_archetype_weights player_archetype.

Definition calculate_pps (z_scores : dict) (player_archetype : archetype) : R :=
  let weights := pps_weights player_archetype in
  sum (map (fun stat => weights !! stat * z_scores !! stat) keys).

Definition calculate_dis (pps : R) (player_archetype : archetype) : result R :=
  let buy_adj := 15 * pps in
  let sell_adj := -15 * pps in
  let buys := 50 + buy_adj + 2 in
  let sells := 50 + sell_adj - 2 in
  py_div (buys - sells) (buys + sells).

Definition calculate_raw_delta (pps dis : R) (player_archetype : archetype) : R :=
  0.8 * pps + 0.2 * dis.

(** The gain curve every upside branch of [apply_dampening] writes out:
    [min(raw_delta / math.sqrt(max(1 - k * raw_delta**2, 0.001)), cap)]. *)
Definition upside (k cap raw_delta : R) : result R :=
  sq <- py_pow2 raw_delta ;;
  s <- math_sqrt (Rmax (1 - k * sq) 0.001) ;;
  q <- py_div raw_delta s ;;
  Ok (Rmin q cap).

Definition apply_dampening (raw_delta : R) (timeframe : string)
    (player_archetype : archetype) : result R :=
  if Rge_dec raw_delta 0 then
    if (timeframe =s "weekly") || (timeframe =s "monthly") then
      if player_archetype == "Superstars" then upside 0.5 10 raw_delta
      else if player_archetype == "One Dimensional" then upside 0.5 10 raw_delta
      else if player_archetype == "Bench Warmers" then
        if timeframe =s "weekly" then upside 0.1 10 raw_delta
        else upside 0.05 10 raw_delta
      else if player_archetype == "Versatile" then
        if timeframe =s "weekly" then upside 0.8 10 raw_delta
        else upside 0.1 10 raw_delta
      else if player_archetype == "Rebounding Machines" then
        upside 0.8 10 raw_delta
      else upside 0.5 10 raw_delta
    else upside 0.1 50 raw_delta
  else
    sq <- py_pow2 (Rabs raw_delta) ;;
    sq' <- py_pow2 (Rabs raw_delta) ;;
    q <- py_div sq (sq' + 0.18) ;;
    Ok (-1 * q).

Definition calculate_new_price (old_price dampened_delta : R) : R * R :=
  let new_price := old_price * (1 + dampened_delta) in
  let price_change_pct := dampened_delta * 100 in
  (new_price, price_change_pct).

Definition simulate_timeframe (actual_totals : list R) (num_games : Z)
    (season_avg recent_avg : list R) (old_price : R) (timeframe : string)
    (use_2023_stats : bool) (player_archetype : archetype)
    : result PricingResult :=
  projected_stats <- calculate_projected_stats season_avg recent_avg timeframe
                       use_2023_stats player_archetype ;;
  std_devs <- calculate_standard_deviations projected_stats timeframe
                player_archetype ;;
  actual_avg <- calculate_actual_averages actual_totals num_games ;;
  z_scores <- calculate_z_scores actual_avg projected_stats std_devs ;;
  let pps := calculate_pps z_scores player_archetype in
  dis <- calculate_dis pps player_archetype ;;
  let raw_delta := calculate_raw_delta pps dis player_archetype in
  dampened_delta <- apply_dampening raw_delta timeframe player_archetype ;;
  let '(new_price, price_change_pct) :=
    calculate_new_price old_price dampened_delta in
  Ok (mkresult projected_stats std_devs actual_avg z_scores pps dis raw_delta
        dampened_delta new_price price_change_pct old_price timeframe
        num_games).

End TimeframeAlgorithm.

(** ** [MonthlyAlgorithm] *)

Module MonthlyAlgorithm.

Definition blend (season_avg recent_avg : list R) : result (list R) :=
  mapM (fun i =>
          s <- getitem season_avg i ;;
          r <- getitem recent_avg i ;;
          Ok (0.5 * s + 0.5 * r))
       (seq 0 (List.length season_avg)).

Definition calculate_projected_stats (season_avg recent_avg : list R)
    (player_archetype : archetype) : result (list R) :=
  projected <- blend season_avg recent_avg ;;
  Ok (if player_archetype == "Superstars" then scale 1.0212 projected
      else if player_archetype == "Elite Shooters" then scale 1.002 projected
      else if player_archetype == "Elite Defenders" then scale 0.99685 projected
      else if player_archetype == "Elite Playmakers" then scale 1.02 projected
      else if player_archetype == "Rebounding Machines" then scale 0.999 projected
      else if player_archetype == "Turnover Prone" then scale 0.9885 projected
      else if player_archetype == "One Dimensional" then scale 1.008 projected
      else if player_archetype == "Versatile" then scale 1.0325 projected
      else if player_archetype == "Role Players" then scale 1.0035 projected
      else if player_archetype == "High Volume Scorers" then scale 1.001 projected
      else if player_archetype == "High Efficiency" then scale 1.0008 projected
      else projected).

Definition _get_monthly_alphas (player_archetype : archetype) : dict :=
  let default_alphas := mkdict 0.809 0.539 0.539 0.547 0.547 0.547 0.07 in
  if arch_not player_archetype then default_alphas
  else if player_archetype == "Superstars" then
    mkdict 1.011 0.674 0.674 0.684 0.684 0.684 0.088
  else if player_archetype == "Elite Shooters" then
    mkdict 0.833 0.555 0.555 0.563 0.563 0.563 0.072
  else if player_archetype == "Elite Playmakers" then
    mkdict 0.971 0.647 0.647 0.656 0.656 0.656 0.084
  else if player_archetype == "Turnover Prone" then
    mkdict 0.769 0.512 0.512 0.520 0.520 0.520 0.067
  else if player_archetype == "One Dimensional" then
    mkdict 0.890 0.593 0.593 0.602 0.602 0.602 0.077
  else if player_archetype == "Versatile" then
    mkdict 1.011 0.674 0.674 0.684 0.684 0.684 0.088
  else if player_archetype == "Role Players" then
    mkdict 0.849 0.566 0.566 0.574 0.574 0.574 0.074
  else default_alphas.

Definition calculate_standard_deviations (projected_stats : list R)
    (player_archetype : archetype) : result dict :=
  '(pts, reb, ast, to, stocks, threepm, ts_pct) <- unpack7 projected_stats ;;
  let alphas := _get_monthly_alphas player_archetype in
  s_pts <- math_sqrt (Rmax pts 0.1) ;;
  s_reb <- math_sqrt (Rmax reb 0.1) ;;
  s_ast <- math_sqrt (Rmax ast 0.1) ;;
  s_to <- math_sqrt (Rmax to 0.1) ;;
  s_stocks <- math_sqrt (Rmax stocks 0.1) ;;
  s_threepm <- math_sqrt (Rmax threepm 0.1) ;;
  Ok (mkdict (alphas !! Kpts * s_pts)
             (alphas !! Kreb * s_reb)
             (alphas !! Kast * s_ast)
             (alphas !! Kto * s_to)
             (alphas !! Kstocks * s_stocks)
             (alphas !! Kthreepm * s_threepm)
             (alphas !! Kts)).

Definition calculate_actual_averages (actual_totals : list R)
    (num_games : Z) : result (list R) :=
  mapM (fun total => py_div total (IZR num_games)) actual_totals.

Definition calculate_z_scores (actual_avg projected_stats : list R)
    (std_devs : dict) : result dict :=
  '(pts, reb, ast, to, stocks, threepm, ts_pct) <- unpack7 actual_avg ;;
  '(proj_pts, proj_reb, proj_ast, proj_to, proj_stocks, proj_threepm,
    proj_ts_pct) <- unpack7 projected_stats ;;
  z_pts <- py_div (pts - proj_pts) (std_devs !! Kpts) ;;
  z_reb <- py_div (reb - proj_reb) (std_devs !! Kreb) ;;
  z_ast <- py_div (ast - proj_ast) (std_devs !! Kast) ;;
  z_to <- py_div (proj_to - to) (std_devs !! Kto) ;;
  z_stocks <- py_div (stocks - proj_stocks) (std_devs !! Kstocks) ;;
  z_threepm <- py_div (threepm - proj_threepm) (std_devs !! Kthreepm) ;;
  z_ts <- py_div (ts_pct - proj_ts_pct) (std_devs !! Kts) ;;
  Ok (mkdict z_pts z_reb z_ast z_to z_stocks z_threepm z_ts).

Definition _get_archetype_weights (player_archetype : archetype) : dict :=
  if player_archetype == "Superstars" then
    mkdict 0.35 0.125 0.125 0.075 0.125 0.10 0.10
  else if player_archetype == "Elite Shooters" then
    mkdict 0.45 0.15 0.15 0.05 0.10 0.05 0.05
  else if player_archetype == "Elite Defenders" then
    mkdict 0.45 0.15 0.15 0.05 0.10 0.05 0.05
  else if player_archetype == "High Volume Scorers" then
    mkdict 0.425 0.125 0.125 0.05 0.075 0.10 0.10
  else if player_archetype == "Elite Playmakers" then
    mkdict 0.375 0.15 0.225 0.05 0.10 0.05 0.05
  else if player_archetype == "Rebounding Machines" then
    mkdict 0.375 0.15 0.225 0.05 0.10 0.05 0.05
  else if player_archetype == "Bench Warmers" then
    mkdict 0.20 0.175 0.175 0.05 0.15 0.10 0.15
  else if player_archetype == "High Efficiency" then
    mkdict 0.45 0.125 0.15 0.05 0.10 0.05 0.075
  else if player_archetype == "Turnover Prone" then
    mkdict 0.45 0.15 0.15 0.025 0.10 0.05 0.075
  else if player_archetype == "One Dimensional" then
    mkdict 0.35 0.175 0.175 0.05 0.125 0.03 0.095
  else if player_archetype == "Versatile" then
    mkdict 0.35 0.125 0.125 0.075 0.125 0.10 0.10
  else if player_archetype == "Role Players" then
    mkdict 0.425 0.175 0.175 0.05 0.075 0.05 0.05
  else mkdict 0.45 0.15 0.15 0.05 0.10 0.05 0.05.

Definition calculate_pps (z_scores : dict) (player_archetype : archetype) : R :=
  let weights := _get_archetype_weights player_archetype in
  sum (map (fun stat => weights !! stat * z_scores !! stat) keys).

Definition calculate_dis (pps : R) (player_archetype : archetype) : result R :=
  let buy_adj := 15 * pps in
  let sell_adj := -15 * pps in
  let buys := 50 + buy_adj + 2 in
  let sells := 50 + sell_adj - 2 in
  py_div (buys - sells) (buys + sells).

Definition calculate_raw_delta (pps dis : R) (player_archetype : archetype) : R :=
  0.8 * pps + 0.2 * dis.

Definition upside (k cap raw_delta : R) : result R :=
  sq <- py_pow2 raw_delta ;;
  s <- math_sqrt (Rmax (1 - k * sq) 0.001) ;;
  q <- py_div raw_delta s ;;
  Ok (Rmin q cap).

Definition apply_dampening (raw_delta : R) (player_archetype : archetype)
    : result R :=
  if Rge_dec raw_delta 0 then
    if player_archetype == "Superstars" then upside 0.5 10 raw_delta
    else if player_archetype == "One Dimensional" then upside 0.5 10 raw_delta
    else if player_archetype == "Bench Warmers" then upside 0.05 10 raw_delta
    else if player_archetype == "Versatile" then upside 0.1 10 raw_delta
    else if player_archetype == "Rebounding Machines" then upside 0.8 10 raw_delta
    else upside 0.5 10 raw_delta
  else
    sq <- py_pow2 (Rabs raw_delta) ;;
    sq' <- py_pow2 (Rabs raw_delta) ;;
    q <- py_div sq (sq' + 0.18) ;;
    Ok (-1 * q).

Definition calculate_new_price (old_price dampened_delta : R) : R * R :=
  let new_price := old_price * (1 + dampened_delta) in
  let price_change_pct := dampened_delta * 100 in
  (new_price, price_change_pct).

Definition simulate_monthly (actual_totals : list R) (num_games : Z)
    (season_avg recent_avg : list R) (old_price : R)
    (player_archetype : archetype) : result PricingResult :=
  projected_stats <- calculate_projected_stats season_avg recent_avg
                       player_archetype ;;
  std_devs <- calculate_standard_deviations projected_stats player_archetype ;;
  actual_avg <- calculate_actual_averages actual_totals num_games ;;
  z_scores <- calculate_z_scores actual_avg projected_stats std_devs ;;
  let pps := calculate_pps z_scores player_archetype in
  dis <- calculate_dis pps player_archetype ;;
  let raw_delta := calculate_raw_delta pps dis player_archetype in
  dampened_delta <- apply_dampening raw_delta player_archetype ;;
  let '(new_price, price_change_pct) :=
    calculate_new_price old_price dampened_delta in
  Ok (mkresult projected_stats std_devs actual_avg z_scores pps dis raw_delta
        dampened_delta new_price price_change_pct old_price "monthly"
        num_games).

End MonthlyAlgorithm.

(** ** [WeeklyAlgorithm] *)

Module WeeklyAlgorithm.

Definition blend (season_avg recent_avg : list R) : result (list R) :=
  mapM (fun i =>
          s <- getitem season_avg i ;;
          r <- getitem recent_avg i ;;
          Ok (0.5 * s + 0.5 * r))
       (seq 0 (List.length season_avg)).

Definition calculate_projected_stats (season_avg recent_avg : list R)
    (player_archetype : archetype) : result (list R) :=
  projected <- blend season_avg recent_avg ;;
  Ok (if player_archetype == "Superstars" then scale 1.035 projected
      else if player_archetype == "Elite Playmakers" then scale 1.035 projected
      else if player_archetype == "Versatile" then scale 1.045 projected
      else if player_archetype == "One Dimensional" then scale 1.0105 projected
      else if player_archetype == "Role Players" then scale 1.01 projected
      else if player_archetype == "Turnover Prone" then scale 0.98 projected
      else if player_archetype == "Rebounding Machines" then scale 0.985 projected
      else if player_archetype == "High Volume Scorers" then scale 0.995 projected
      else if player_archetype == "Bench Warmers" then scale 1.003 projected
      else if player_archetype == "Elite Shooters" then scale 0.9975 projected
      else projected).

Definition _get_weekly_alphas (player_archetype : archetype)
    (projected_stats : list R) : result dict :=
  let default_alphas := mkdict 1.418 0.945 0.945 0.958 0.958 0.958 0.07 in
  if arch_not player_archetype then Ok default_alphas
  else if player_archetype == "Superstars" then
    Ok (mkdict 1.6 1.1 1.1 0.958 0.958 0.958 0.07)
  else if player_archetype == "Versatile" then
    Ok (mkdict 1.702 1.134 1.134 1.150 1.150 1.150 0.084)
  else if player_archetype == "Elite Playmakers" then
    Ok (mkdict 1.418 0.945 1.2 0.958 0.958 0.958 0.07)
  else if player_archetype == "High Volume Scorers" then
    Ok (mkdict 1.3 0.945 0.945 0.958 0.958 0.958 0.07)
  else if player_archetype == "Rebounding Machines" then
    Ok (mkdict 1.418 0.85 0.945 0.958 0.958 0.958 0.07)
  else if player_archetype == "Bench Warmers" then
    Ok (mkdict 1.021 0.680 0.680 0.689 0.689 0.689 0.050)
  else if player_archetype == "Turnover Prone" then
    Ok (mkdict 1.418 0.945 0.945 1.1 0.958 0.958 0.07)
  else if player_archetype == "One Dimensional" then
    '(pts, reb, ast, to, stocks, threepm, ts_pct) <- unpack7 projected_stats ;;
    let stats := [pts; reb; ast; to; stocks; threepm] in
    let stat_names := [Kpts; Kreb; Kast; Kto; Kstocks; Kthreepm] in
    m <- py_max stats ;;
    max_index <- index stats m ;;
    signature_stat <- getname stat_names max_index ;;
    let alphas := default_alphas in
    Ok (set alphas signature_stat (alphas !! signature_stat * 1.08))
  else if player_archetype == "Role Players" then
    Ok (mkdict 1.489 0.992 0.992 1.006 1.006 1.006 0.074)
  else Ok default_alphas.

Definition calculate_standard_deviations (projected_stats : list R)
    (player_archetype : archetype) : result dict :=
  '(pts, reb, ast, to, stocks, threepm, ts_pct) <- unpack7 projected_stats ;;
  alphas <- _get_weekly_alphas player_archetype projected_stats ;;
  s_pts <- math_sqrt (Rmax pts 0.1) ;;
  s_reb <- math_sqrt (Rmax reb 0.1) ;;
  s_ast <- math_sqrt (Rmax ast 0.1) ;;
  s_to <- math_sqrt (Rmax to 0.1) ;;
  s_stocks <- math_sqrt (Rmax stocks 0.1) ;;
  s_threepm <- math_sqrt (Rmax threepm 0.1) ;;
  Ok (mkdict (alphas !! Kpts * s_pts)
             (alphas !! Kreb * s_reb)
             (alphas !! Kast * s_ast)
             (alphas !! Kto * s_to)
             (alphas !! Kstocks * s_stocks)
             (alphas !! Kthreepm * s_threepm)
             (alphas !! Kts)).

Definition calculate_actual_averages (actual_totals : list R)
    (num_games : Z) : result (list R) :=
  mapM (fun total => py_div total (IZR num_games)) actual_totals.

Definition calculate_z_scores (actual_avg projected_stats : list R)
    (std_devs : dict) : result dict :=
  '(pts, reb, ast, to, stocks, threepm, ts_pct) <- unpack7 actual_avg ;;
  '(proj_pts, proj_reb, proj_ast, proj_to, proj_stocks, proj_threepm,
    proj_ts_pct) <- unpack7 projected_stats ;;
  z_pts <- py_div (pts - proj_pts) (std_devs !! Kpts) ;;
  z_reb <- py_div (reb - proj_reb) (std_devs !! Kreb) ;;
  z_ast <- py_div (ast - proj_ast) (std_devs !! Kast) ;;
  z_to <- py_div (proj_to - to) (std_devs !! Kto) ;;
  z_stocks <- py_div (stocks - proj_stocks) (std_devs !! Kstocks) ;;
  z_threepm <- py_div (threepm - proj_threepm) (std_devs !! Kthreepm) ;;
  z_ts <- py_div (ts_pct - proj_ts_pct) (std_devs !! Kts) ;;
  Ok (mkdict z_pts z_reb z_ast z_to z_stocks z_threepm z_ts).

Definition _get_archetype_weights (player_archetype : archetype) : dict :=
  if player_archetype == "Superstars" then
    mkdict 0.35 0.125 0.125 0.075 0.125 0.10 0.10
  else if player_archetype == "Elite Shooters" then
    mkdict 0.45 0.15 0.15 0.05 0.10 0.05 0.05
  else if player_archetype == "Elite Defenders" then
    mkdict 0.45 0.15 0.15 0.05 0.10 0.05 0.05
  else if player_archetype == "High Volume Scorers" then
    mkdict 0.425 0.125 0.125 0.05 0.075 0.10 0.10
  else if player_archetype == "Elite Playmakers" then
    mkdict 0.375 0.15 0.225 0.05 0.10 0.05 0.05
  else if player_archetype == "Rebounding Machines" then
    mkdict 0.375 0.15 0.225 0.05 0.10 0.05 0.05
  else if player_archetype == "Bench Warmers" then
    mkdict 0.20 0.175 0.175 0.05 0.15 0.10 0.15
  else if player_archetype == "High Efficiency" then
    mkdict 0.45 0.125 0.15 0.05 0.10 0.05 0.075
  else if player_archetype == "Turnover Prone" then
    mkdict 0.45 0.15 0.15 0.025 0.10 0.05 0.075
  else if player_archetype == "One Dimensional" then
    mkdict 0.35 0.175 0.175 0.05 0.125 0.03 0.095
  else if player_archetype == "Versatile" then
    mkdict 0.35 0.125 0.125 0.075 0.125 0.10 0.10
  else if player_archetype == "Role Players" then
    mkdict 0.425 0.175 0.175 0.05 0.075 0.05 0.05
  else mkdict 0.45 0.15 0.15 0.05 0.10 0.05 0.05.

Definition calculate_pps (z_scores : dict) (player_archetype : archetype) : R :=
  let weights := _get_archetype_weights player_archetype in
  sum (map (fun stat => weights !! stat * z_scores !! stat) keys).

Definition calculate_dis (pps : R) (player_archetype : archetype) : result R :=
  let buy_adj := 15 * pps in
  let sell_adj := -15 * pps in
  let buys := 50 + buy_adj + 2 in
  let sells := 50 + sell_adj - 2 in
  py_div (buys - sells) (buys + sells).

Definition calculate_raw_delta (pps dis : R) (player_archetype : archetype) : R :=
  0.8 * pps + 0.2 * dis.

Definition upside (k cap raw_delta : R) : result R :=
  sq <- py_pow2 raw_delta ;;
  s <- math_sqrt (Rmax (1 - k * sq) 0.001) ;;
  q <- py_div raw_delta s ;;
  Ok (Rmin q cap).

Definition apply_dampening (raw_delta : R) (player_archetype : archetype)
    : result R :=
  if Rge_dec raw_delta 0 then
    if player_archetype == "Superstars" then upside 0.5 10 raw_delta
    else if player_archetype == "One Dimensional" then upside 0.5 10 raw_delta
    else if player_archetype == "Bench Warmers" then upside 0.1 10 raw_delta
    else if player_archetype == "Versatile" then upside 0.8 10 raw_delta
    else if player_archetype == "Rebounding Machines" then upside 0.8 10 raw_delta
    else upside 0.5 10 raw_delta
  else
    sq <- py_pow2 (Rabs raw_delta) ;;
    sq' <- py_pow2 (Rabs raw_delta) ;;
    q <- py_div sq (sq' + 0.18) ;;
    Ok (-1 * q).

Definition calculate_new_price (old_price dampened_delta : R) : R * R :=
  let new_price := old_price * (1 + dampened_delta) in
  let price_change_pct := dampened_delta * 100 in
  (new_price, price_change_pct).

Definition simulate_weekly (actual_totals : list R) (num_games : Z)
    (season_avg recent_avg : list R) (old_price : R)
    (player_archetype : archetype) : result PricingResult :=
  projected_stats <- calculate_projected_stats season_avg recent_avg
                       player_archetype ;;
  std_devs <- calculate_standard_deviations projected_stats player_archetype ;;
  actual_avg <- calculate_actual_averages actual_totals num_games ;;
  z_scores <- calculate_z_scores actual_avg projected_stats std_devs ;;
  let pps := calculate_pps z_scores player_archetype in
  dis <- calculate_dis pps player_archetype ;;
  let raw_delta := calculate_raw_delta pps dis player_archetype in
  dampened_delta <- apply_dampening raw_delta player_archetype ;;
  let '(new_price, price_change_pct) :=
    calculate_new_price old_price dampened_delta in
  Ok (mkresult projected_stats std_devs actual_avg z_scores pps dis raw_delta
        dampened_delta new_price price_change_pct old_price "weekly"
        num_games).

End WeeklyAlgorithm.

(** ** [TimeframeTestAlgorithm]: the engine without archetypes *)

Module TimeframeTestAlgorithm.

Definition blend (season_avg recent_avg : list R) : result (list R) :=
  mapM (fun i =>
          s <- getitem season_avg i ;;
          r <- getitem recent_avg i ;;
          Ok (0.5 * s + 0.5 * r))
       (seq 0 (List.length season_avg)).

Definition calculate_projected_stats (season_avg recent_avg : list R)
    (timeframe : string) (use_2023_stats : bool) : result (list R) :=
  if timeframe =s "weekly" then blend season_avg recent_avg
  else if timeframe =s "monthly" then blend season_avg recent_avg
  else if timeframe =s "season" then
    if use_2023_stats then Ok season_avg else Ok season_avg
  else
    Raise (ValueError "Invalid timeframe. Use 'weekly', 'monthly', or 'season'").

Definition calculate_standard_deviations (projected_stats : list R)
    (timeframe : string) : result dict :=
  '(pts, reb, ast, to, stocks, threepm, ts_pct) <- unpack7 projected_stats ;;
  let alphas :=
    if timeframe =s "weekly" then
      mkdict 1.418 0.945 0.945 0.958 0.958 0.958 0.07
    else if timeframe =s "monthly" then
      mkdict 0.809 0.539 0.539 0.547 0.547 0.547 0.07
    else mkdict 0.794 0.529 0.529 0.537 0.537 0.537 0.07 in
  s_pts <- math_sqrt (Rmax pts 0.1) ;;
  s_reb <- math_sqrt (Rmax reb 0.1) ;;
  s_ast <- math_sqrt (Rmax ast 0.1) ;;
  s_to <- math_sqrt (Rmax to 0.1) ;;
  s_stocks <- math_sqrt (Rmax stocks 0.1) ;;
  s_threepm <- math_sqrt (Rmax threepm 0.1) ;;
  Ok (mkdict (alphas !! Kpts * s_pts)
             (alphas !! Kreb * s_reb)
             (alphas !! Kast * s_ast)
             (alphas !! Kto * s_to)
             (alphas !! Kstocks * s_stocks)
             (alphas !! Kthreepm * s_threepm)
             (alphas !! Kts)).

Definition calculate_actual_averages (actual_totals : list R)
    (num_games : Z) : result (list R) :=
  mapM (fun total => py_div total (IZR num_games)) actual_totals.

Definition calculate_z_scores (actual_avg projected_stats : list R)
    (std_devs : dict) : result dict :=
  '(pts, reb, ast, to, stocks, threepm, ts_pct) <- unpack7 actual_avg ;;
  '(proj_pts, proj_reb, proj_ast, proj_to, proj_stocks, proj_threepm,
    proj_ts_pct) <- unpack7 projected_stats ;;
  z_pts <- py_div (pts - proj_pts) (std_devs !! Kpts) ;;
  z_reb <- py_div (reb - proj_reb) (std_devs !! Kreb) ;;
  z_ast <- py_div (ast - proj_ast) (std_devs !! Kast) ;;
  z_to <- py_div (proj_to - to) (std_devs !! Kto) ;;
  z_stocks <- py_div (stocks - proj_stocks) (std_devs !! Kstocks) ;;
  z_threepm <- py_div (threepm - proj_threepm) (std_devs !! Kthreepm) ;;
  z_ts <- py_div (ts_pct - proj_ts_pct) (std_devs !! Kts) ;;
  Ok (mkdict z_pts z_reb z_ast z_to z_stocks z_threepm z_ts).

Definition calculate_pps (z_scores : dict) : R :=
  let weights := mkdict 0.45 0.15 0.15 0.05 0.10 0.05 0.05 in
  sum (map (fun stat => weights !! stat * z_scores !! stat) keys).

Definition calculate_dis (pps : R) : result R :=
  let buy_adj := 15 * pps in
  let sell_adj := -15 * pps in
  let buys := 50 + buy_adj + 2 in
  let sells := 50 + sell_adj - 2 in
  py_div (buys - sells) (buys + sells).

Definition calculate_raw_delta (pps dis : R) : R :=
  0.8 * pps + 0.2 * dis.

Definition upside (k cap raw_delta : R) : result R :=
  sq <- py_pow2 raw_delta ;;
  s <- math_sqrt (Rmax (1 - k * sq) 0.001) ;;
  q <- py_div raw_delta s ;;
  Ok (Rmin q cap).

Definition apply_dampening (raw_delta : R) (timeframe : string) : result R :=
  if Rge_dec raw_delta 0 then
    if timeframe =s "weekly" then upside 0.1 10 raw_delta
    else if timeframe =s "monthly" then upside 0.1 10 raw_delta
    else upside 0.1 50 raw_delta
  else
    sq <- py_pow2 (Rabs raw_delta) ;;
    sq' <- py_pow2 (Rabs raw_delta) ;;
    q <- py_div sq (sq' + 0.18) ;;
    Ok (-1 * q).

Definition calculate_new_price (old_price dampened_delta : R) : R * R :=
  let new_price := old_price * (1 + dampened_delta) in
  let price_change_pct := dampened_delta * 100 in
  (new_price, price_change_pct).

Definition simulate_timeframe (actual_totals : list R) (num_games : Z)
    (season_avg recent_avg : list R) (old_price : R) (timeframe : string)
    (use_2023_stats : bool) : result PricingResult :=
  projected_stats <- calculate_projected_stats season_avg recent_avg timeframe
                       use_2023_stats ;;
  std_devs <- calculate_standard_deviations projected_stats timeframe ;;
  actual_avg <- calculate_actual_averages actual_totals num_games ;;
  z_scores <- calculate_z_scores actual_avg projected_stats std_devs ;;
  let pps := calculate_pps z_scores in
  dis <- calculate_dis pps ;;
  let raw_delta := calculate_raw_delta pps dis in
  dampened_delta <- apply_dampening raw_delta timeframe ;;
  let '(new_price, price_change_pct) :=
    calculate_new_price old_price dampened_delta in
  Ok (mkresult projected_stats std_devs actual_avg z_scores pps dis raw_delta
        dampened_delta new_price price_change_pct old_price timeframe
        num_games).

End TimeframeTestAlgorithm.

(** ** [TimeframeAlgorithm] on binary64 floats

    The class once more, now as CPython runs it: every number is a binary64
    float (the [int] literals and arguments of the source are converted where
    they meet a float) and every operation rounds to nearest, ties to even.
    The functions are the ones of [TimeframeAlgorithm] above, statement by
    statement; only the number type differs.  They are evaluated on concrete
    inputs, where the rounding of the code departs from real arithmetic. *)

Module Binary64.
Import PrimFloat.
Local Open Scope float_scope.

(** [x / y] on floats. *)
Definition py_div (x y : float) : result float :=
  if y =? 0 then Raise ZeroDivisionError else Ok (x / y).

(** An [int] operand of a float operation: the nearest float, or
    OverflowError when there is none. *)
Definition float_of_int (n : Z) : result float :=
  let f :=
    FloatOps.SF2Prim
      (SpecFloat.binary_normalize FloatOps.prec FloatOps.emax n 0 false) in
  if is_infinity f then Raise OverflowError else Ok f.

(** [x ** 2] on floats: the square rounded once, OverflowError when a finite
    [x] has a square out of range.  (The C library's [pow] may be one unit in
    the last place away from the rounded square; it is exact where the square
    is a float, and out of range where the square is.) *)
Definition py_pow2 (x : float) : result float :=
  if is_nan x then Ok x
  else if is_infinity x then Ok infinity
  else
    let r := x * x in
    if is_infinity r then Raise OverflowError else Ok r.

(** [math.sqrt(x)]. *)
Definition math_sqrt (x : float) : result float :=
  if x <? 0 then Raise (ValueError "math domain error") else Ok (sqrt x).

(** [max(a, b)] and [min(a, b)]: the first argument unless the second is
    strictly beyond it. *)
Definition py_max2 (a b : float) : float := if a <? b then b else a.
Definition py_min2 (a b : float) : float := if b <? a then b else a.

(** [t[i]] on a tuple. *)
Definition getitem (t : list float) (i : nat) : result float :=
  match nth_error t i with
  | Some x => Ok x
  | None => Raise IndexError
  end.

(** [a, b, c, d, e, f, g = t]. *)
Definition unpack7 (t : list float)
    : result (float * float * float * float * float * float * float) :=
  match t with
  | [a; b; c; d; e; f; g] => Ok (a, b, c, d, e, f, g)
  | _ => Raise UnpackError
  end.

Record dict : Type := mkdict {
  v_pts : float; v_reb : float; v_ast : float; v_to : float;
  v_stocks : float; v_threepm : float; v_ts : float
}.

(** [d[k]]. *)
Definition get (d : dict) (k : key) : float :=
  match k with
  | Kpts => v_pts d | Kreb => v_reb d | Kast => v_ast d | Kto => v_to d
  | Kstocks => v_stocks d | Kthreepm => v_threepm d | Kts => v_ts d
  end.

(** [d[k] = v]. *)
Definition set (d : dict) (k : key) (v : float) : dict :=
  match k with
  | Kpts => mkdict v (v_reb d) (v_ast d) (v_to d) (v_stocks d) (v_threepm d) (v_ts d)
  | Kreb => mkdict (v_pts d) v (v_ast d) (v_to d) (v_stocks d) (v_threepm d) (v_ts d)
  | Kast => mkdict (v_pts d) (v_reb d) v (v_to d) (v_stocks d) (v_threepm d) (v_ts d)
  | Kto => mkdict (v_pts d) (v_reb d) (v_ast d) v (v_stocks d) (v_threepm d) (v_ts d)
  | Kstocks => mkdict (v_pts d) (v_reb d) (v_ast d) (v_to d) v (v_threepm d) (v_ts d)
  | Kthreepm => mkdict (v_pts d) (v_reb d) (v_ast d) (v_to d) (v_stocks d) v (v_ts d)
  | Kts => mkdict (v_pts d) (v_reb d) (v_ast d) (v_to d) (v_stocks d) (v_threepm d) v
  end.

(** [sum(xs)]: starts from 0 and adds from the left, rounding each partial
    sum.  (CPython from 3.12 on compensates that rounding, which can move
    the last digit of a PPS; nothing stated below depends on it.) *)
Definition sum (xs : list float) : float := fold_left add xs 0.

(** [max(xs)] on a sequence: the first item unless a later one is strictly
    greater; ValueError on an empty one. *)
Definition py_max (xs : list float) : result float :=
  match xs with
  | [] => Raise (ValueError "max() arg is an empty sequence")
  | x :: xs' => Ok (fold_left py_max2 xs' x)
  end.

(** [xs.index(v)]: the first position holding [v], which is an equal item
    or [v] itself (a NaN equals no float, but is itself). *)
Fixpoint index (xs : list float) (v : float) : result nat :=
  match xs with
  | [] => Raise (ValueError "x is not in list")
  | x :: xs' =>
      if (x =? v) || (is_nan x && is_nan v) then Ok 0%nat
      else i <- index xs' v ;; Ok (S i)
  end.

(** [[stat * c for stat in projected]]. *)
Definition scale (c : float) (projected : list float) : list float :=
  map (fun stat => stat * c) projected.

Record PricingResult : Type := mkresult {
  projected_stats : list float;
  standard_deviations : dict;
  actual_averages : list float;
  z_scores : dict;
  pps : float;
  dis : float;
  raw_delta : float;
  dampened_delta : float;
  new_price : float;
  price_change_pct : float;
  old_price : float;
  timeframe : string;
  num_games : Z
}.


(** The loop [for i in range(len(season_avg)):
      projected.append(0.5 * season_avg[i] + 0.5 * recent_avg[i])]. *)
Definition blend (season_avg recent_avg : list float)
    : result (list float) :=
  mapM (fun i =>
          s <- getitem season_avg i ;;
          r <- getitem recent_avg i ;;
          Ok (0.5 * s + 0.5 * r))
       (seq 0%nat (List.length season_avg)).

Definition calculate_projected_stats (season_avg recent_avg : list float)
    (timeframe : string) (use_2023_stats : bool)
    (player_archetype : archetype) : result (list float) :=
  projected <-
    (if timeframe =s "weekly" then blend season_avg recent_avg
     else if timeframe =s "monthly" then
       projected <- blend season_avg recent_avg ;;
       Ok (if player_archetype == "Superstars" then scale 1.0212 projected
           else if player_archetype == "Elite Shooters" then scale 1.002 projected
           else if player_archetype == "Elite Defenders" then scale 0.99685 projected
           else if player_archetype == "Elite Playmakers" then scale 1.02 projected
           else if player_archetype == "Rebounding Machines" then scale 0.999 projected
           else if player_archetype == "Turnover Prone" then scale 0.9885 projected
           else if player_archetype == "One Dimensional" then scale 1.008 projected
           else if player_archetype == "Versatile" then scale 1.0325 projected
           else if player_archetype == "Role Players" then scale 1.0035 projected
           else if player_archetype == "High Volume Scorers" then scale 1.001 projected
           else if player_archetype == "High Efficiency" then scale 1.0008 projected
           else projected)
     else if timeframe =s "season" then
       if use_2023_stats then Ok season_avg else Ok season_avg
     else
       Raise (ValueError "Invalid timeframe. Use 'weekly', 'monthly', or 'season'")) ;;
  Ok (if (player_archetype == "Superstars") && (timeframe =s "weekly")
      then scale 1.035 projected
      else if (player_archetype == "Elite Playmakers") && (timeframe =s "weekly")
      then scale 1.035 projected
      else if (player_archetype == "Versatile") && (timeframe =s "weekly")
      then scale 1.045 projected
      else if (player_archetype == "One Dimensional") && (timeframe =s "weekly")
      then scale 1.0105 projected
      else if (player_archetype == "Role Players") && (timeframe =s "weekly")
      then scale 1.01 projected
      else if (player_archetype == "Turnover Prone") && (timeframe =s "weekly")
      then scale 0.98 projected
      else if (player_archetype == "Rebounding Machines") && (timeframe =s "weekly")
      then scale 0.985 projected
      else if (player_archetype == "High Volume Scorers") && (timeframe =s "weekly")
      then scale 0.995 projected
      else if (player_archetype == "Bench Warmers") && (timeframe =s "weekly")
      then scale 1.003 projected
      else if (player_archetype == "Elite Shooters") && (timeframe =s "weekly")
      then scale 0.9975 projected
      else projected).

Definition _get_weekly_alphas (player_archetype : archetype)
    (projected_stats : list float) : result dict :=
  let default_alphas := mkdict 1.418 0.945 0.945 0.958 0.958 0.958 0.07 in
  if arch_not player_archetype then Ok default_alphas
  else if player_archetype == "Superstars" then
    Ok (mkdict 1.6 1.1 1.1 0.958 0.958 0.958 0.07)
  else if player_archetype == "Versatile" then
    Ok (mkdict 1.702 1.134 1.134 1.150 1.150 1.150 0.084)
  else if player_archetype == "Elite Playmakers" then
    Ok (mkdict 1.418 0.945 1.2 0.958 0.958 0.958 0.07)
  else if player_archetype == "High Volume Scorers" then
    Ok (mkdict 1.3 0.945 0.945 0.958 0.958 0.958 0.07)
  else if player_archetype == "Rebounding Machines" then
    Ok (mkdict 1.418 0.85 0.945 0.958 0.958 0.958 0.07)
  else if player_archetype == "Bench Warmers" then
    Ok (mkdict 1.021 0.680 0.680 0.689 0.689 0.689 0.050)
  else if player_archetype == "Turnover Prone" then
    Ok (mkdict 1.418 0.945 0.945 1.1 0.958 0.958 0.07)
  else if player_archetype == "One Dimensional" then
    '(pts, reb, ast, to, stocks, threepm, ts_pct) <- unpack7 projected_stats ;;
    let stats := [pts; reb; ast; to; stocks; threepm] in
    let stat_names := [Kpts; Kreb; Kast; Kto; Kstocks; Kthreepm] in
    m <- py_max stats ;;
    max_index <- index stats m ;;
    signature_stat <- getname stat_names max_index ;;
    let alphas := default_alphas in
    Ok (set alphas signature_stat (get alphas signature_stat * 1.08))
  else if player_archetype == "Role Players" then
    Ok (mkdict 1.489 0.992 0.992 1.006 1.006 1.006 0.074)
  else Ok default_alphas.

(** Every path of the source function returns before the second cascade
    that follows the first one in the file; that unreachable text (a copy of
    the weekly cascade) is not part of the function's behaviour. *)
Definition _get_monthly_alphas (player_archetype : archetype) : dict :=
  let default_alphas := mkdict 0.809 0.539 0.539 0.547 0.547 0.547 0.07 in
  if arch_not player_archetype then default_alphas
  else if player_archetype == "Superstars" then
    mkdict 1.011 0.674 0.674 0.684 0.684 0.684 0.088
  else if player_archetype == "Elite Shooters" then
    mkdict 0.833 0.555 0.555 0.563 0.563 0.563 0.072
  else if player_archetype == "Elite Playmakers" then
    mkdict 0.971 0.647 0.647 0.656 0.656 0.656 0.084
  else if player_archetype == "Turnover Prone" then
    mkdict 0.769 0.512 0.512 0.520 0.520 0.520 0.067
  else if player_archetype == "One Dimensional" then
    mkdict 0.890 0.593 0.593 0.602 0.602 0.602 0.077
  else if player_archetype == "Versatile" then
    mkdict 1.011 0.674 0.674 0.684 0.684 0.684 0.088
  else if player_archetype == "Role Players" then
    mkdict 0.849 0.566 0.566 0.574 0.574 0.574 0.074
  else default_alphas.

Definition calculate_standard_deviations (projected_stats : list float)
    (timeframe : string) (player_archetype : archetype) : result dict :=
  '(pts, reb, ast, to, stocks, threepm, ts_pct) <- unpack7 projected_stats ;;
  alphas <-
    (if timeframe =s "weekly" then
       _get_weekly_alphas player_archetype projected_stats
     else if timeframe =s "monthly" then
       Ok (_get_monthly_alphas player_archetype)
     else Ok (mkdict 0.794 0.529 0.529 0.537 0.537 0.537 0.07)) ;;
  s_pts <- math_sqrt (py_max2 pts 0.1) ;;
  s_reb <- math_sqrt (py_max2 reb 0.1) ;;
  s_ast <- math_sqrt (py_max2 ast 0.1) ;;
  s_to <- math_sqrt (py_max2 to 0.1) ;;
  s_stocks <- math_sqrt (py_max2 stocks 0.1) ;;
  s_threepm <- math_sqrt (py_max2 threepm 0.1) ;;
  Ok (mkdict (get alphas Kpts * s_pts)
             (get alphas Kreb * s_reb)
             (get alphas Kast * s_ast)
             (get alphas Kto * s_to)
             (get alphas Kstocks * s_stocks)
             (get alphas Kthreepm * s_threepm)
             (get alphas Kts)).

Definition calculate_actual_averages (actual_totals : list float)
    (num_games : Z) : result (list float) :=
  mapM (fun total => n <- float_of_int num_games ;; py_div total n)
       actual_totals.

Definition calculate_z_scores (actual_avg projected_stats : list float)
    (std_devs : dict) : result dict :=
  '(pts, reb, ast, to, stocks, threepm, ts_pct) <- unpack7 actual_avg ;;
  '(proj_pts, proj_reb, proj_ast, proj_to, proj_stocks, proj_threepm,
    proj_ts_pct) <- unpack7 projected_stats ;;
  z_pts <- py_div (pts - proj_pts) (get std_devs Kpts) ;;
  z_reb <- py_div (reb - proj_reb) (get std_devs Kreb) ;;
  z_ast <- py_div (ast - proj_ast) (get std_devs Kast) ;;
  z_to <- py_div (proj_to - to) (get std_devs Kto) ;;
  z_stocks <- py_div (stocks - proj_stocks) (get std_devs Kstocks) ;;
  z_threepm <- py_div (threepm - proj_threepm) (get std_devs Kthreepm) ;;
  z_ts <- py_div (ts_pct - proj_ts_pct) (get std_devs Kts) ;;
  Ok (mkdict z_pts z_reb z_ast z_to z_stocks z_threepm z_ts).

Definition _get_archetype_weights (player_archetype : archetype) : dict :=
  if player_archetype == "Superstars" then
    mkdict 0.35 0.125 0.125 0.075 0.125 0.10 0.10
  else if player_archetype == "Elite Shooters" then
    mkdict 0.45 0.15 0.15 0.05 0.10 0.05 0.05
  else if player_archetype == "Elite Defenders" then
    mkdict 0.45 0.15 0.15 0.05 0.10 0.05 0.05
  else if player_archetype == "High Volume Scorers" then
    mkdict 0.425 0.125 0.125 0.05 0.075 0.10 0.10
  else if player_archetype == "Elite Playmakers" then
    mkdict 0.375 0.15 0.225 0.05 0.10 0.05 0.05
  else if player_archetype == "Rebounding Machines" then
    mkdict 0.375 0.15 0.225 0.05 0.10 0.05 0.05
  else if player_archetype == "Bench Warmers" then
    mkdict 0.20 0.175 0.175 0.05 0.15 0.10 0.15
  else if player_archetype == "High Efficiency" then
    mkdict 0.45 0.125 0.15 0.05 0.10 0.05 0.075
  else if player_archetype == "Turnover Prone" then
    mkdict 0.45 0.15 0.15 0.025 0.10 0.05 0.075
  else if player_archetype == "One Dimensional" then
    mkdict 0.35 0.175 0.175 0.05 0.125 0.03 0.095
  else if player_archetype == "Versatile" then
    mkdict 0.35 0.125 0.125 0.075 0.125 0.10 0.10
  else if player_archetype == "Role Players" then
    mkdict 0.425 0.175 0.175 0.05 0.075 0.05 0.05
  else mkdict 0.45 0.15 0.15 0.05 0.10 0.05 0.05.

(** The weight vector [calculate_pps] selects. *)
Definition pps_weights (player_archetype : archetype) : dict :=
  let default_weights := mkdict 0.45 0.15 0.15 0.05 0.10 0.05 0.05 in
  if arch_not player_archetype then default_weights
  else _get_archetype_weights player_archetype.

Definition calculate_pps (z_scores : dict) (player_archetype : archetype)
    : float :=
  let weights := pps_weights player_archetype in
  sum (map (fun stat => get weights stat * get z_scores stat) keys).

Definition calculate_dis (pps : float) (player_archetype : archetype)
    : result float :=
  let buy_adj := 15 * pps in
  let sell_adj := -15 * pps in
  let buys := 50 + buy_adj + 2 in
  let sells := 50 + sell_adj - 2 in
  py_div (buys - sells) (buys + sells).

Definition calculate_raw_delta (pps dis : float)
    (player_archetype : archetype) : float :=
  0.8 * pps + 0.2 * dis.

(** The gain curve every upside branch of [apply_dampening] writes out:
    [min(raw_delta / math.sqrt(max(1 - k * raw_delta**2, 0.001)), cap)]. *)
Definition upside (k cap raw_delta : float) : result float :=
  sq <- py_pow2 raw_delta ;;
  s <- math_sqrt (py_max2 (1 - k * sq) 0.001) ;;
  q <- py_div raw_delta s ;;
  Ok (py_min2 q cap).

Definition apply_dampening (raw_delta : float) (timeframe : string)
    (player_archetype : archetype) : result float :=
  if 0 <=? raw_delta then
    if (timeframe =s "weekly") || (timeframe =s "monthly") then
      if player_archetype == "Superstars" then upside 0.5 10 raw_delta
      else if player_archetype == "One Dimensional" then upside 0.5 10 raw_delta
      else if player_archetype == "Bench Warmers" then
        if timeframe =s "weekly" then upside 0.1 10 raw_delta
        else upside 0.05 10 raw_delta
      else if player_archetype == "Versatile" then
        if timeframe =s "weekly" then upside 0.8 10 raw_delta
        else upside 0.1 10 raw_delta
      else if player_archetype == "Rebounding Machines" then
        upside 0.8 10 raw_delta
      else upside 0.5 10 raw_delta
    else upside 0.1 50 raw_delta
  else
    sq <- py_pow2 (abs raw_delta) ;;
    sq' <- py_pow2 (abs raw_delta) ;;
    q <- py_div sq (sq' + 0.18) ;;
    Ok (-1 * q).

Definition calculate_new_price (old_price dampened_delta : float)
    : float * float :=
  let new_price := old_price * (1 + dampened_delta) in
  let price_change_pct := dampened_delta * 100 in
  (new_price, price_change_pct).

Definition simulate_timeframe (actual_totals : list float) (num_games : Z)
    (season_avg recent_avg : list float) (old_price : float)
    (timeframe : string)
    (use_2023_stats : bool) (player_archetype : archetype)
    : result PricingResult :=
  projected_stats <- calculate_projected_stats season_avg recent_avg timeframe
                       use_2023_stats player_archetype ;;
  std_devs <- calculate_standard_deviations projected_stats timeframe
                player_archetype ;;
  actual_avg <- calculate_actual_averages actual_totals num_games ;;
  z_scores <- calculate_z_scores actual_avg projected_stats std_devs ;;
  let pps := calculate_pps z_scores player_archetype in
  dis <- calculate_dis pps player_archetype ;;
  let raw_delta := calculate_raw_delta pps dis player_archetype in
  dampened_delta <- apply_dampening raw_delta timeframe player_archetype ;;
  let '(new_price, price_change_pct) :=
    calculate_new_price old_price dampened_delta in
  Ok (mkresult projected_stats std_devs actual_avg z_scores pps dis raw_delta
        dampened_delta new_price price_change_pct old_price timeframe
        num_games).

End Binary64.

(** ** [SportsMarket]: the game log behind the stat tuples

    The player table is filled from a random generator; it is a parameter of
    the functions that read it.  The functions that draw random samples are
    left out. *)

Module SportsMarket.

(** A game is a stat tuple; a player's entry holds the game log and two
    season averages. *)
Record player_data : Type := mkplayer {
  games : list (list R);
  season_avg_2023 : list R;
  season_avg_2024 : list R
}.

(** The dictionary [self.players], in insertion order, keys distinct. *)
Definition players_dict : Type := list (string * player_data).

(** [for x in xs: s = body(s, x)], stopping at the first exception. *)
Fixpoint for_each {S A : Type} (xs : list A) (body : S -> A -> result S)
    (s : S) : result S :=
  match xs with
  | [] => Ok s
  | x :: xs' => s' <- body s x ;; for_each xs' body s'
  end.

(** [l[i] = v] on a list. *)
Fixpoint setitem (l : list R) (i : nat) (v : R) : result (list R) :=
  match l, i with
  | [], _ => Raise IndexError
  | _ :: l', O => Ok (v :: l')
  | x :: l', S i' => l'' <- setitem l' i' v ;; Ok (x :: l'')
  end.

(** [l[start:]] for an integer [start], negative counting from the end. *)
Definition slice_from {A : Type} (l : list A) (start : Z) : list A :=
  let len := Z.of_nat (List.length l) in
  let first := if (start <? 0)%Z then Z.max (len + start) 0
               else Z.min start len in
  skipn (Z.to_nat first) l.

(** The inner loop [for i in range(7): totals[i] += game[i]]. *)
Definition add_game (totals game : list R) : result (list R) :=
  for_each (seq 0 7)
    (fun totals i =>
       t <- getitem totals i ;;
       g <- getitem game i ;;
       setitem totals i (t + g))
    totals.

Definition _calculate_season_averages (games : list (list R))
    : result (list R) :=
  match games with
  | [] => Ok [0; 0; 0; 0; 0; 0; 0]
  | _ =>
      totals <- for_each games add_game [0; 0; 0; 0; 0; 0; 0] ;;
      let n_games := List.length games in
      mapM (fun total => py_div total (INR n_games)) totals
  end.

Definition get_player_data (players : players_dict) (player_name : string)
    : option player_data :=
  match find (fun entry => fst entry =s player_name) players with
  | Some entry => Some (snd entry)
  | None => None
  end.

Definition list_players (players : players_dict) : list string :=
  map fst players.

Definition get_last_n_games (players : players_dict) (player_name : string)
    (n : Z) : list (list R) :=
  match get_player_data players player_name with
  | None => []
  | Some data => slice_from (games data) (- n)
  end.

Definition calculate_last_n_averages (games : list (list R)) (n : Z)
    : result (list R) :=
  if (Z.of_nat (List.length games) <? n)%Z then
    _calculate_season_averages games
  else
    let last_n := slice_from games (- n) in
    _calculate_season_averages last_n.

End SportsMarket.

(** ** [archetype_analysis.categorize_players] *)

Module ArchetypeAnalysis.
Import SportsMarket.

(** The exceptions of this function. *)
Inductive failure : Type :=
| KeyError (key : string)   (* player_categories[key] on a missing key *)
| TypeError                 (* subscripting the None of an unknown player *)
| UnpackFailure.            (* the ValueError of a failed tuple unpacking *)

Definition outcome (A : Type) : Type := (failure + A)%type.

(** An entry [(player_name, season_avg)] and the dictionary from archetype
    name to the list of its entries, in insertion order. *)
Definition entry : Type := (string * list R)%type.
Definition categories : Type := list (string * list entry).

(** [x >= y] and [x <= y] as truth values. *)
Definition geb (x y : R) : bool := if Rge_dec x y then true else false.
Definition leb (x y : R) : bool := if Rle_dec x y then true else false.

(** [player_categories[key].append(e)]. *)
Fixpoint append_to (cats : categories) (key : string) (e : entry)
    : outcome categories :=
  match cats with
  | [] => inl (KeyError key)
  | (k, l) :: rest =>
      if k =s key then inr ((k, (l ++ [e])%list) :: rest)
      else match append_to rest key e with
           | inr rest' => inr ((k, l) :: rest')
           | inl err => inl err
           end
  end.

(** The unpacking of the season average and the if/elif cascade of the loop
    body: the key the player is appended under. *)
Definition category_of (season_avg : list R) : outcome string :=
  match season_avg with
  | [pts; reb; ast; to; stocks; threepm; ts_pct] =>
      inr (if geb pts 25 && geb ast 6 && geb reb 6 then "Superstars"
           else if geb threepm 3 && geb ts_pct 0.60 then "Elite Shooters"
           else if geb stocks 2.5 && leb pts 14 then "Elite Defenders"
           else if geb pts 20 && leb ts_pct 0.55 then "High Volume Scorers"
           else if geb ast 8 then "Elite Playmakers"
           else if geb reb 10 then "Rebounding Machines"
           else if leb pts 6 then "Bench Warmers"
           else if geb ts_pct 0.62 then "High Efficiency"
           else if geb to 4 then "Turnover Prone"
           else if geb pts 18 && (leb reb 3 || leb ast 3)
           then "One Dimensional"
           else if leb 10 pts && leb pts 18 && leb 3 reb && leb reb 7
                   && leb 3 ast && leb ast 6
           then "Versatile"
           else "Role Players")
  | _ => inl UnpackFailure
  end.

(** One turn of the loop over the player names. *)
Definition categorize_one (players : players_dict)
    (player_categories : categories) (player_name : string)
    : outcome categories :=
  match get_player_data players player_name with
  | None => inl TypeError
  | Some player_data =>
      let season_avg := season_avg_2024 player_data in
      match category_of season_avg with
      | inr key => append_to player_categories key (player_name, season_avg)
      | inl err => inl err
      end
  end.

Fixpoint categorize_loop (players : players_dict) (names : list string)
    (player_categories : categories) : outcome categories :=
  match names with
  | [] => inr player_categories
  | player_name :: names' =>
      match categorize_one players player_categories player_name with
      | inr cats' => categorize_loop players names' cats'
      | inl err => inl err
      end
  end.

(** [archetypes] is passed as the list of the keys of the dictionary the
    source receives; its values are never read. *)
Definition categorize_players (players : players_dict)
    (archetypes : list string) : outcome categories :=
  let player_categories := map (fun archetype => (archetype, [])) archetypes in
  categorize_loop players (list_players players) player_categories.

End ArchetypeAnalysis.

(** ** Properties *)

(** The three timeframe tags the engine accepts. *)
Definition valid_timeframe (timeframe : string) : Prop :=
  timeframe = "weekly" \/ timeframe = "monthly" \/ timeframe = "season".

(** The cap of the gain branch: 10 for weekly and monthly, 50 for season. *)
Definition timeframe_cap (timeframe : string) : R :=
  if (timeframe =s "weekly") || (timeframe =s "monthly") then 10 else 50.

(** The coefficient [k] of the gain curve
    [raw_delta / sqrt(max(1 - k * raw_delta**2, 0.001))] that
    [apply_dampening] writes out for a timeframe and an archetype. *)
Definition gain_coefficient (timeframe : string)
    (player_archetype : archetype) : R :=
  if (timeframe =s "weekly") || (timeframe =s "monthly") then
    if player_archetype == "Superstars" then 0.5
    else if player_archetype == "One Dimensional" then 0.5
    else if player_archetype == "Bench Warmers" then
      if timeframe =s "weekly" then 0.1 else 0.05
    else if player_archetype == "Versatile" then
      if timeframe =s "weekly" then 0.8 else 0.1
    else if player_archetype == "Rebounding Machines" then 0.8
    else 0.5
  else 0.1.

(** The error an unknown timeframe tag is answered with. *)
Definition invalid_timeframe_error : exn :=
  ValueError "Invalid timeframe. Use 'weekly', 'monthly', or 'season'".

(** Position of a stat in a stat tuple: (points, rebounds, assists,
    turnovers, stocks, three-pointers made, true-shooting percentage). *)
Definition key_pos (k : key) : nat :=
  match k with
  | Kpts => 0 | Kreb => 1 | Kast => 2 | Kto => 3
  | Kstocks => 4 | Kthreepm => 5 | Kts => 6
  end%nat.

(** The field of a stat tuple a key names. *)
Definition field (t : list R) (k : key) : R := nth (key_pos k) t 0.

(** The stat tuple [t] with the field named by [k] replaced by [v]. *)
Definition with_field (t : list R) (k : key) (v : R) : list R :=
  firstn (key_pos k) t ++ v :: skipn (S (key_pos k)) t.

(** A stat tuple whose seven fields are at most [m] in magnitude. *)
Definition within (m : R) (t : list R) : Prop :=
  forall k, - m <= field t k <= m.

(** The six magnitude stats: every stat but the shooting percentage. *)
Definition magnitude_keys : list key :=
  [Kpts; Kreb; Kast; Kto; Kstocks; Kthreepm].

(** The default dispersion coefficients of the weekly and monthly stages. *)
Definition weekly_default_alphas : dict :=
  mkdict 1.418 0.945 0.945 0.958 0.958 0.958 0.07.
Definition monthly_default_alphas : dict :=
  mkdict 0.809 0.539 0.539 0.547 0.547 0.547 0.07.

(** The signature-stat rule in the design document's words: [alphas] is
    [default_alphas] except at one magnitude stat whose projected value is the
    largest of the six, and there the coefficient is the default times 1.08. *)
Definition signature_boost (default_alphas alphas : dict)
    (projected_stats : list R) : Prop :=
  exists k, In k magnitude_keys /\
    (forall k', In k' magnitude_keys ->
                field projected_stats k' <= field projected_stats k) /\
    alphas !! k = default_alphas !! k * 1.08 /\
    (forall k', k' <> k -> alphas !! k' = default_alphas !! k').

(** The claim on the "One Dimensional" archetype, at one projected tuple:
    both the weekly and the monthly stage follow the signature-stat rule. *)
Definition one_dimensional_rule_at_both (projected_stats : list R) : Prop :=
  (exists alphas,
      TimeframeAlgorithm._get_weekly_alphas (Some "One Dimensional")
        projected_stats = Ok alphas /\
      signature_boost weekly_default_alphas alphas projected_stats) /\
  signature_boost monthly_default_alphas
    (TimeframeAlgorithm._get_monthly_alphas (Some "One Dimensional"))
    projected_stats.

(** The twelve archetype names the tables of the engine know. *)
Definition known_archetypes : list string :=
  ["Superstars"; "Elite Shooters"; "Elite Defenders"; "High Volume Scorers";
   "Elite Playmakers"; "Rebounding Machines"; "Bench Warmers";
   "High Efficiency"; "Turnover Prone"; "One Dimensional"; "Versatile";
   "Role Players"].

(** The 50/50 blend of two stat tuples, field by field, as far as both go. *)
Definition midpoints (season_avg recent_avg : list R) : list R :=
  map (fun sr => 0.5 * fst sr + 0.5 * snd sr) (combine season_avg recent_avg).

(** Two audit records that agree on every field computed before the
    dampening stage, and on the echoed inputs. *)
Definition same_before_dampening (r1 r2 : PricingResult) : Prop :=
  projected_stats r1 = projected_stats r2 /\
  standard_deviations r1 = standard_deviations r2 /\
  actual_averages r1 = actual_averages r2 /\
  z_scores r1 = z_scores r2 /\
  pps r1 = pps r2 /\ dis r1 = dis r2 /\ raw_delta r1 = raw_delta r2 /\
  old_price r1 = old_price r2 /\ timeframe r1 = timeframe r2 /\
  num_games r1 = num_games r2.

(** The values of stat [i] over a game log. *)
Definition column (i : nat) (games : list (list R)) : list R :=
  map (fun game => nth i game 0) games.

(** The mean of stat [i] over a game log. *)
Definition column_mean (i : nat) (games : list (list R)) : R :=
  sum (column i games) / INR (List.length games).

(** A category dictionary in which every entry sits under the key the
    cascade of [categorize_players] computes for its season average. *)
Definition correctly_labelled (cats : ArchetypeAnalysis.categories) : Prop :=
  forall k l e, In (k, l) cats -> In e l ->
    ArchetypeAnalysis.category_of (snd e) = inr k.

(** The entry [categorize_players] files for a row of the player table. *)
Definition entry_of_player (row : string * SportsMarket.player_data)
    : ArchetypeAnalysis.entry :=
  (fst row, SportsMarket.season_avg_2024 (snd row)).

(** ** Proof tools *)

(** Case analysis on every conditional of the goal, outermost first. *)
Ltac split_ifs :=
  repeat match goal with
         | |- context [if ?b then _ else _] => destruct b
         end.

(** A concrete stat tuple is within a concrete bound. *)
Ltac in_range :=
  let k := fresh "k" in
  unfold within, field; intros k; destruct k; simpl; lra.

(** A sequence of length seven, as its seven elements. *)
Ltac seven t :=
  destruct t as [|? [|? [|? [|? [|? [|? [|? [|? ?]]]]]]]]; try discriminate.

(** ** The gain curve *)

Section Dampening.
Import TimeframeAlgorithm.

Lemma radicand_guard (k x : R) : 0.001 <= Rmax (1 - k * x ^ 2) 0.001.
Proof. apply Rmax_r. Qed.

Lemma sqrt_guard_pos (k x : R) : 0 < sqrt (Rmax (1 - k * x ^ 2) 0.001).
Proof. apply sqrt_lt_R0. pose proof (radicand_guard k x). lra. Qed.

Lemma py_pow2_value (x : R) : Rabs x <= 1.34e154 -> py_pow2 x = Ok (x ^ 2).
Proof.
  intros Hx. unfold py_pow2, float_overflow.
  pose proof (Rabs_pos x) as H0. rewrite <- pow2_abs.
  destruct (Rlt_dec _ _) as [_|Hn]; [reflexivity|].
  exfalso. apply Hn.
  apply Rle_lt_trans with (r2 := 1.34e154 * 1.34e154); [|lra].
  cbn [pow]. rewrite Rmult_1_r. apply Rmult_le_compat; lra.
Qed.

Lemma py_pow2_overflow (x : R) :
  1.35e154 <= Rabs x -> py_pow2 x = Raise OverflowError.
Proof.
  intros Hx. unfold py_pow2, float_overflow.
  rewrite <- pow2_abs.
  destruct (Rlt_dec _ _) as [Hl|_]; [|reflexivity].
  exfalso.
  assert (H : 1.35e154 * 1.35e154 <= Rabs x ^ 2).
  { cbn [pow]. rewrite Rmult_1_r. apply Rmult_le_compat; lra. }
  lra.
Qed.

Lemma upside_value (k cap x : R) :
  Rabs x <= 1.34e154 ->
  upside k cap x = Ok (Rmin (x / sqrt (Rmax (1 - k * x ^ 2) 0.001)) cap).
Proof.
  intros Hx. unfold upside. rewrite (py_pow2_value x Hx).
  unfold math_sqrt, py_div, bind.
  pose proof (radicand_guard k x) as Hg.
  pose proof (sqrt_guard_pos k x) as Hs.
  destruct (Rlt_dec _ 0) as [Hn|_]; [lra|].
  destruct (Req_dec_T _ 0) as [Hz|_]; [lra|].
  reflexivity.
Qed.

Lemma upside_overflow (k cap x : R) :
  1.35e154 <= Rabs x -> upside k cap x = Raise OverflowError.
Proof. intros Hx. unfold upside. now rewrite (py_pow2_overflow x Hx). Qed.

(** The gain curve returns exactly when the square is in range. *)
Lemma upside_outcome (k cap x : R) :
  upside k cap x
  = if Rlt_dec (x ^ 2) float_overflow
    then Ok (Rmin (x / sqrt (Rmax (1 - k * x ^ 2) 0.001)) cap)
    else Raise OverflowError.
Proof.
  unfold upside, py_pow2.
  destruct (Rlt_dec (x ^ 2) float_overflow) as [_|_]; [|reflexivity].
  unfold math_sqrt, py_div, bind.
  pose proof (radicand_guard k x) as Hg.
  pose proof (sqrt_guard_pos k x) as Hs.
  destruct (Rlt_dec _ 0) as [Hn|_]; [lra|].
  destruct (Req_dec_T _ 0) as [Hz|_]; [lra|].
  reflexivity.
Qed.

Lemma sqrt_milli_le : sqrt 0.001 <= 0.1.
Proof.
  replace 0.1 with (sqrt (0.1 * 0.1)) by (apply sqrt_square; lra).
  apply sqrt_le_1_alt. lra.
Qed.

Lemma upside_saturates (k cap x : R) :
  0.05 <= k -> cap <= 50 -> 5 <= x <= 1.34e154 -> upside k cap x = Ok cap.
Proof.
  intros Hk Hc Hx. rewrite upside_value by (rewrite Rabs_pos_eq; lra).
  f_equal.
  assert (Hr : Rmax (1 - k * x ^ 2) 0.001 = 0.001).
  { apply Rmax_right. nra. }
  rewrite Hr. apply Rmin_right.
  pose proof sqrt_milli_le as Hs.
  assert (Hp : 0 < sqrt 0.001) by (apply sqrt_lt_R0; lra).
  apply Rmult_le_reg_r with (r := sqrt 0.001); [exact Hp|].
  unfold Rdiv. rewrite Rmult_assoc, Rinv_l by lra. nra.
Qed.

End Dampening.

(** *** The two dampening branches *)

Section DampeningBranches.
Import TimeframeAlgorithm.

Lemma gain_branch_value (x : R) (timeframe : string) (a : archetype) :
  x >= 0 ->
  apply_dampening x timeframe a
  = upside (gain_coefficient timeframe a) (timeframe_cap timeframe) x.
Proof.
  intros Hx. unfold apply_dampening, gain_coefficient, timeframe_cap.
  destruct (Rge_dec x 0) as [_|Hn]; [|contradiction].
  destruct ((timeframe =s "weekly") || (timeframe =s "monthly"));
    [|reflexivity].
  split_ifs; reflexivity.
Qed.

Lemma gain_coefficient_range (timeframe : string) (a : archetype) :
  0.05 <= gain_coefficient timeframe a <= 0.8.
Proof. unfold gain_coefficient. split_ifs; lra. Qed.

Lemma gain_branch_cases (x : R) (timeframe : string) (a : archetype) :
  x >= 0 ->
  exists k, 0.05 <= k /\
    apply_dampening x timeframe a = upside k (timeframe_cap timeframe) x.
Proof.
  intros Hx. exists (gain_coefficient timeframe a). split.
  - apply gain_coefficient_range.
  - now apply gain_branch_value.
Qed.

Lemma loss_curve_bounds (x : R) :
  x < 0 ->
  -1 < - (Rabs x ^ 2 / (Rabs x ^ 2 + 0.18)) < 0.
Proof.
  intros Hx.
  assert (Ha : 0 < Rabs x) by (apply Rabs_pos_lt; lra).
  assert (Hq : 0 < Rabs x ^ 2) by (simpl; nra).
  set (q := Rabs x ^ 2) in *.
  assert (Hd : 0 < q + 0.18) by lra.
  assert (H0 : 0 < q / (q + 0.18)) by (apply Rdiv_lt_0_compat; lra).
  assert (H1 : q / (q + 0.18) < 1).
  { apply Rmult_lt_reg_r with (r := q + 0.18); [exact Hd|].
    unfold Rdiv. rewrite Rmult_assoc, Rinv_l by lra. lra. }
  lra.
Qed.

Lemma loss_branch_value (x : R) (timeframe : string) (a : archetype) :
  -1.34e154 <= x < 0 ->
  apply_dampening x timeframe a = Ok (- (Rabs x ^ 2 / (Rabs x ^ 2 + 0.18))).
Proof.
  intros Hx. unfold apply_dampening.
  destruct (Rge_dec x 0) as [Hp|_]; [lra|].
  rewrite py_pow2_value
    by (rewrite Rabs_Rabsolu, Rabs_left by lra; lra).
  assert (Hq : 0 <= Rabs x ^ 2) by (apply pow_le, Rabs_pos).
  unfold py_div, bind.
  destruct (Req_dec_T _ 0) as [Hz|_]; [lra|].
  f_equal. lra.
Qed.

Lemma loss_branch_overflow (x : R) (timeframe : string) (a : archetype) :
  x <= -1.35e154 -> apply_dampening x timeframe a = Raise OverflowError.
Proof.
  intros Hx. unfold apply_dampening.
  destruct (Rge_dec x 0) as [Hp|_]; [lra|].
  rewrite py_pow2_overflow; [reflexivity|].
  rewrite Rabs_Rabsolu, Rabs_left by lra. lra.
Qed.

Lemma gain_branch_overflow (x : R) (timeframe : string) (a : archetype) :
  1.35e154 <= x -> apply_dampening x timeframe a = Raise OverflowError.
Proof.
  intros Hx. rewrite gain_branch_value by lra.
  apply upside_overflow. rewrite Rabs_pos_eq; lra.
Qed.


(** C1.  On the gain branch ([raw_delta >= 0]), for each of the three
    timeframes and for every archetype (named, absent or unrecognised), the
    radicand [max(1 - k*raw_delta^2, 0.001)] is at least 0.001, with [k] the
    coefficient the code writes out for that timeframe and archetype.  As
    long as [raw_delta**2] is a float (up to 1.34e154) [apply_dampening]
    returns the written-out gain curve; the value lies between 0 and the
    timeframe's cap (10 for weekly and monthly, 50 for season) and equals
    the cap from [raw_delta = 5] on.  From 1.35e154 on the call raises
    OverflowError instead of returning. *)
Theorem apply_dampening_gain_capped
    (x : R) (timeframe : string) (a : archetype)
    (Hx : 0 <= x) (Htf : valid_timeframe timeframe) :
  0.001 <= Rmax (1 - gain_coefficient timeframe a * x ^ 2) 0.001 /\
  (x <= 1.34e154 ->
   exists d,
     apply_dampening x timeframe a = Ok d /\
     d = Rmin (x / sqrt (Rmax (1 - gain_coefficient timeframe a * x ^ 2)
                           0.001))
              (timeframe_cap timeframe) /\
     0 <= d <= timeframe_cap timeframe /\
     (5 <= x -> d = timeframe_cap timeframe)) /\
  (1.35e154 <= x -> apply_dampening x timeframe a = Raise OverflowError).
Proof.
  assert (Hc : 10 <= timeframe_cap timeframe <= 50)
    by (unfold timeframe_cap; split_ifs; lra).
  pose proof (gain_coefficient_range timeframe a) as Hk.
  split; [apply radicand_guard|]. split.
  - intros Hb.
    assert (Ha : Rabs x <= 1.34e154) by (rewrite Rabs_pos_eq; lra).
    eexists. split; [|split; [reflexivity|split]].
    + rewrite gain_branch_value by lra. now apply upside_value.
    + split; [|apply Rmin_r].
      apply Rmin_glb; [|lra].
      apply Rmult_le_pos; [exact Hx|].
      left. apply Rinv_0_lt_compat, sqrt_guard_pos.
    + intros H5.
      pose proof (upside_saturates (gain_coefficient timeframe a)
                    (timeframe_cap timeframe) x (proj1 Hk) (proj2 Hc)
                    (conj H5 Hb)) as Hs.
      rewrite upside_value in Hs by exact Ha. now injection Hs.
  - now apply gain_branch_overflow.
Qed.

Lemma apply_dampening_gain_capped_witness :
  (exists d,
     apply_dampening 7 "season" (Some "Versatile") = Ok d /\
     0 <= d <= 50 /\ d = 50) /\
  apply_dampening 2e154 "season" (Some "Versatile") = Raise OverflowError.
Proof.
  destruct (apply_dampening_gain_capped 7 "season" (Some "Versatile")
              ltac:(lra) ltac:(right; right; reflexivity))
    as [_ [Hin _]].
  destruct (apply_dampening_gain_capped 2e154 "season" (Some "Versatile")
              ltac:(lra) ltac:(right; right; reflexivity))
    as [_ [_ Hout]].
  split; [|apply Hout; lra].
  destruct (Hin ltac:(lra)) as [d [Hd [_ [Hcap Hsat]]]].
  exists d. split; [exact Hd|]. split; [exact Hcap|].
  apply Hsat. lra.
Defined.

(** C2.  On the loss branch ([raw_delta < 0]), whatever the timeframe string
    and the archetype, as long as [raw_delta**2] is a float (down to
    -1.34e154) [apply_dampening] returns
    [-1 * (|raw_delta|^2 / (|raw_delta|^2 + 0.18))], a value between -1 and
    0, and strictly between them for [raw_delta] between -4e7 and -1e-150.
    From -1.35e154 down the call raises OverflowError. *)
Theorem apply_dampening_loss_floor
    (x : R) (timeframe : string) (a : archetype) (Hx : x < 0) :
  (-1.34e154 <= x ->
   exists d,
     apply_dampening x timeframe a = Ok d /\
     d = -1 * (Rabs x ^ 2 / (Rabs x ^ 2 + 0.18)) /\
     -1 <= d <= 0 /\
     (-4e7 <= x <= -1e-150 -> -1 < d < 0)) /\
  (x <= -1.35e154 -> apply_dampening x timeframe a = Raise OverflowError).
Proof.
  split; [|now apply loss_branch_overflow].
  intros Hb. pose proof (loss_curve_bounds x Hx) as Hl.
  exists (- (Rabs x ^ 2 / (Rabs x ^ 2 + 0.18))).
  split; [apply loss_branch_value; lra|].
  split; [lra|]. split; [lra|]. intros _. exact Hl.
Qed.

Lemma apply_dampening_loss_floor_witness :
  (exists d,
     apply_dampening (-1000) "weekly" None = Ok d /\
     d = -1 * (Rabs (-1000) ^ 2 / (Rabs (-1000) ^ 2 + 0.18)) /\
     -1 < d < 0) /\
  apply_dampening (-2e154) "weekly" None = Raise OverflowError.
Proof.
  destruct (apply_dampening_loss_floor (-1000) "weekly" None ltac:(lra))
    as [Hin _].
  destruct (apply_dampening_loss_floor (-2e154) "weekly" None ltac:(lra))
    as [_ Hout].
  split; [|apply Hout; lra].
  destruct (Hin ltac:(lra)) as [d [Hd [Hv [_ Hs]]]].
  exists d. split; [exact Hd|]. split; [exact Hv|]. apply Hs. lra.
Defined.

End DampeningBranches.

(** *** The demand imbalance score *)

Section DemandImbalance.
Import TimeframeAlgorithm.

(** The two pools always add up to 100, so the ratio is an affine map. *)
Lemma calculate_dis_affine (p : R) (a : archetype) :
  calculate_dis p a = Ok (0.3 * p + 0.04).
Proof.
  unfold calculate_dis, py_div.
  replace (50 + 15 * p + 2 + (50 + -15 * p - 2)) with 100 by lra.
  destruct (Req_dec_T 100 0) as [Hz|_]; [lra|].
  f_equal. lra.
Qed.



(** C5, as stated, fails: the score at PPS = 0 is not negative. *)
Lemma calculate_dis_zero_not_negative :
  ~ (exists d, calculate_dis 0 None = Ok d /\ d < 0).
Proof.
  intros [d [Hd Hneg]].
  rewrite calculate_dis_affine in Hd. injection Hd as <-. lra.
Qed.

(** C5, amended.  At PPS = 0 the +2 on buys and the -2 on sells give
    [buys = 52], [sells = 48] and a DIS of 0.04: a small constant offset that
    is positive, in favour of buys.  The raw delta at PPS = 0 is then 0.008,
    which is on the gain branch. *)
Theorem calculate_dis_zero_offset (a : archetype) :
  calculate_dis 0 a = Ok ((52 - 48) / (52 + 48)) /\
  calculate_dis 0 a = Ok 0.04 /\
  0 < 0.04 /\
  calculate_raw_delta 0 0.04 a = 0.008.
Proof.
  rewrite calculate_dis_affine. unfold calculate_raw_delta.
  repeat split; try lra; f_equal; lra.
Qed.

End DemandImbalance.

(** *** The composite-score weights *)

Section Weights.
Import TimeframeAlgorithm.

(** C7.  For every archetype argument (each named archetype, [None], the
    empty string and any other string) the seven weights [calculate_pps]
    uses add up to exactly 1, hence to 1 within 1e-9. *)
Theorem pps_weights_sum_to_one (a : archetype) :
  sum (map (fun stat => pps_weights a !! stat) keys) = 1 /\
  Rabs (sum (map (fun stat => pps_weights a !! stat) keys) - 1) <= 1e-9.
Proof.
  assert (H : sum (map (fun stat => pps_weights a !! stat) keys) = 1).
  { unfold pps_weights, _get_archetype_weights.
    split_ifs; unfold sum, keys; simpl; lra. }
  split; [exact H|].
  rewrite H. replace (1 - 1) with 0 by lra. rewrite Rabs_R0. lra.
Qed.

Lemma pps_weights_positive (a : archetype) (k : key) : 0 < pps_weights a !! k.
Proof.
  unfold pps_weights, _get_archetype_weights.
  split_ifs; destruct k; simpl; lra.
Qed.

End Weights.

(** *** Invalid timeframe tags *)

Section InvalidTimeframe.
Import TimeframeAlgorithm.

Lemma eqb_neq_false (s t : string) : s <> t -> (s =s t) = false.
Proof. intros H. now apply String.eqb_neq. Qed.

(** C9.  For a timeframe string other than "weekly", "monthly" and "season",
    [calculate_projected_stats] raises the ValueError with the message naming
    the three accepted tags, and [simulate_timeframe] raises that same error
    whatever its other arguments are: also on tuples of the wrong length and
    on [num_games = 0], where a later stage would have raised an unpacking
    error or a ZeroDivisionError had it been reached. *)
Theorem invalid_timeframe_fails_fast
    (actual_totals : list R) (num_games : Z) (season_avg recent_avg : list R)
    (old_price : R) (timeframe : string) (use_2023_stats : bool)
    (a : archetype)
    (Hw : timeframe <> "weekly") (Hm : timeframe <> "monthly")
    (Hs : timeframe <> "season") :
  calculate_projected_stats season_avg recent_avg timeframe use_2023_stats a
    = Raise invalid_timeframe_error /\
  simulate_timeframe actual_totals num_games season_avg recent_avg old_price
    timeframe use_2023_stats a
    = Raise invalid_timeframe_error.
Proof.
  assert (Hp : calculate_projected_stats season_avg recent_avg timeframe
                 use_2023_stats a = Raise invalid_timeframe_error).
  { unfold calculate_projected_stats.
    rewrite (eqb_neq_false _ _ Hw), (eqb_neq_false _ _ Hm),
      (eqb_neq_false _ _ Hs).
    reflexivity. }
  split; [exact Hp|].
  unfold simulate_timeframe. rewrite Hp. reflexivity.
Qed.

Lemma invalid_timeframe_fails_fast_witness :
  calculate_projected_stats [] [1] "daily" false (Some "Superstars")
    = Raise invalid_timeframe_error /\
  simulate_timeframe [1; 2] 0 [] [1] 35 "daily" false (Some "Superstars")
    = Raise invalid_timeframe_error.
Proof.
  apply (invalid_timeframe_fails_fast [1; 2] 0 [] [1] 35 "daily" false
           (Some "Superstars")); discriminate.
Defined.

End InvalidTimeframe.

(** *** The standalone monthly engine and the unified one *)

Section MonthlyRefinement.

Lemma bind_Ok {A : Type} (m : result A) : (x <- m ;; Ok x) = m.
Proof. now destruct m. Qed.

Lemma bind_ext {A B : Type} (m : result A) (f g : A -> result B) :
  (forall x, f x = g x) -> bind m f = bind m g.
Proof. intros H. destruct m; simpl; auto. Qed.

Lemma monthly_projection_agrees (season_avg recent_avg : list R)
    (use_2023_stats : bool) (a : archetype) :
  MonthlyAlgorithm.calculate_projected_stats season_avg recent_avg a
  = TimeframeAlgorithm.calculate_projected_stats season_avg recent_avg
      "monthly" use_2023_stats a.
Proof.
  unfold MonthlyAlgorithm.calculate_projected_stats,
    TimeframeAlgorithm.calculate_projected_stats.
  change ("monthly" =s "weekly") with false.
  change ("monthly" =s "monthly") with true.
  cbv iota. rewrite !andb_false_r. cbv iota.
  now rewrite bind_Ok.
Qed.

Lemma monthly_dispersion_agrees (projected_stats : list R) (a : archetype) :
  MonthlyAlgorithm.calculate_standard_deviations projected_stats a
  = TimeframeAlgorithm.calculate_standard_deviations projected_stats
      "monthly" a.
Proof. reflexivity. Qed.

Lemma monthly_weights_agree (a : archetype) :
  MonthlyAlgorithm._get_archetype_weights a = TimeframeAlgorithm.pps_weights a.
Proof.
  unfold TimeframeAlgorithm.pps_weights.
  destruct a as [s|]; simpl; [|reflexivity].
  destruct (s =s "") eqn:He; [|reflexivity].
  apply String.eqb_eq in He. subst s. reflexivity.
Qed.

Lemma monthly_pps_agrees (z : dict) (a : archetype) :
  MonthlyAlgorithm.calculate_pps z a = TimeframeAlgorithm.calculate_pps z a.
Proof.
  unfold MonthlyAlgorithm.calculate_pps, TimeframeAlgorithm.calculate_pps.
  now rewrite monthly_weights_agree.
Qed.

Lemma monthly_dampening_agrees (x : R) (a : archetype) :
  MonthlyAlgorithm.apply_dampening x a
  = TimeframeAlgorithm.apply_dampening x "monthly" a.
Proof. reflexivity. Qed.

(** C10.  On every input the standalone [MonthlyAlgorithm.simulate_monthly]
    and the unified [TimeframeAlgorithm.simulate_timeframe] called with
    timeframe "monthly" have the same outcome: the same result record when
    they return (in particular whenever [num_games <> 0]), and the same
    exception when they raise.  The flag [use_2023_stats] plays no part. *)
Theorem simulate_monthly_agrees_with_unified
    (actual_totals : list R) (num_games : Z) (season_avg recent_avg : list R)
    (old_price : R) (use_2023_stats : bool) (a : archetype) :
  MonthlyAlgorithm.simulate_monthly actual_totals num_games season_avg
    recent_avg old_price a
  = TimeframeAlgorithm.simulate_timeframe actual_totals num_games season_avg
      recent_avg old_price "monthly" use_2023_stats a.
Proof.
  unfold MonthlyAlgorithm.simulate_monthly,
    TimeframeAlgorithm.simulate_timeframe.
  rewrite (monthly_projection_agrees _ _ use_2023_stats).
  apply bind_ext; intros projected_stats.
  rewrite monthly_dispersion_agrees.
  apply bind_ext; intros std_devs.
  apply bind_ext; intros actual_avg.
  apply bind_ext; intros z.
  rewrite monthly_pps_agrees.
  apply bind_ext; intros d.
  rewrite monthly_dampening_agrees.
  reflexivity.
Qed.

End MonthlyRefinement.

(** *** The signature stat of the "One Dimensional" archetype *)

Section SignatureStat.
Import TimeframeAlgorithm.

Lemma fold_Rmax_ge_init (l : list R) (x : R) : x <= fold_left Rmax l x.
Proof.
  revert x. induction l as [|y l IH]; intros x; simpl.
  - lra.
  - eapply Rle_trans; [apply Rmax_l | apply IH].
Qed.

Lemma fold_Rmax_upper (l : list R) (x y : R) :
  In y l -> y <= fold_left Rmax l x.
Proof.
  revert x. induction l as [|z l IH]; intros x Hin; simpl in *.
  - contradiction.
  - destruct Hin as [->|Hin].
    + eapply Rle_trans; [apply Rmax_r | apply fold_Rmax_ge_init].
    + now apply IH.
Qed.

Lemma fold_Rmax_attained (l : list R) (x : R) :
  In (fold_left Rmax l x) (x :: l).
Proof.
  revert x. induction l as [|y l IH]; intros x; simpl.
  - now left.
  - destruct (IH (Rmax x y)) as [H|H].
    + rewrite <- H. unfold Rmax.
      destruct (Rle_dec x y); [right; left | left]; reflexivity.
    + right. now right.
Qed.

Lemma index_first (l : list R) (v : R) :
  In v l ->
  exists i, index l v = Ok i /\ nth_error l i = Some v /\
            forall j y, (j < i)%nat -> nth_error l j = Some y -> y <> v.
Proof.
  induction l as [|x l IH]; intros Hin; simpl in *.
  - contradiction.
  - destruct (Req_dec_T x v) as [->|Hne].
    + exists 0%nat. repeat split; auto. intros j y Hj. lia.
    + destruct Hin as [Hx|Hin]; [contradiction|].
      destruct (IH Hin) as [i [Hi [Hn Hfirst]]].
      exists (S i). rewrite Hi. simpl. repeat split; auto.
      intros [|j] y Hj Hy; simpl in Hy.
      * now injection Hy as <-.
      * apply (Hfirst j); [lia|exact Hy].
Qed.

(** [stats.index(max(stats))] on a nonempty list: the first position of a
    largest element. *)
Lemma index_of_max (x : R) (l : list R) :
  exists m i,
    py_max (x :: l) = Ok m /\ index (x :: l) m = Ok i /\
    nth_error (x :: l) i = Some m /\
    (forall y, In y (x :: l) -> y <= m) /\
    (forall j y, (j < i)%nat -> nth_error (x :: l) j = Some y -> y < m).
Proof.
  set (m := fold_left Rmax l x).
  assert (Hup : forall y, In y (x :: l) -> y <= m).
  { intros y [<-|Hy]; [apply fold_Rmax_ge_init | now apply fold_Rmax_upper]. }
  destruct (index_first (x :: l) m (fold_Rmax_attained l x))
    as [i [Hi [Hn Hfirst]]].
  exists m, i. repeat split; auto.
  intros j y Hj Hy.
  assert (y <= m) by (apply Hup; eapply nth_error_In; eauto).
  assert (y <> m) by (eapply Hfirst; eauto).
  lra.
Qed.

Lemma weekly_defaults_are_the_code's (p : list R) :
  _get_weekly_alphas None p = Ok weekly_default_alphas.
Proof. reflexivity. Qed.

Lemma monthly_defaults_are_the_code's :
  _get_monthly_alphas None = monthly_default_alphas.
Proof. reflexivity. Qed.

(** C3, as stated, fails: at the projected tuple
    (20, 5, 5, 2, 1.5, 2, 0.55) the monthly coefficients of "One Dimensional"
    are not the monthly defaults with one of them raised by 8%. *)
Lemma one_dimensional_monthly_has_no_selection :
  ~ one_dimensional_rule_at_both [20; 5; 5; 2; 1.5; 2; 0.55].
Proof.
  intros [_ [k [_ [_ [_ Hrest]]]]].
  destruct k;
    [ pose proof (Hrest Kreb ltac:(discriminate)) as H
    | pose proof (Hrest Kpts ltac:(discriminate)) as H .. ];
    simpl in H; lra.
Qed.

(** The weekly selection on a projected 7-tuple. *)
Lemma weekly_signature_selection (p : list R) (Hlen : List.length p = 7%nat) :
  exists k alphas,
    _get_weekly_alphas (Some "One Dimensional") p = Ok alphas /\
    alphas = set weekly_default_alphas k (weekly_default_alphas !! k * 1.08) /\
    In k magnitude_keys /\
    (forall k', In k' magnitude_keys -> field p k' <= field p k) /\
    (forall k', (key_pos k' < key_pos k)%nat -> field p k' < field p k) /\
    signature_boost weekly_default_alphas alphas p.
Proof.
  destruct p as [|a [|b [|c [|d [|e [|f [|g [|? ?]]]]]]]]; try discriminate.
  clear Hlen.
  destruct (index_of_max a [b; c; d; e; f]) as [m [i [Hm [Hi [Hn [Hup Hfirst]]]]]].
  assert (Hsel : forall k,
    getname magnitude_keys i = Ok k ->
    _get_weekly_alphas (Some "One Dimensional") [a; b; c; d; e; f; g]
    = Ok (set weekly_default_alphas k (weekly_default_alphas !! k * 1.08))).
  { intros k Hk. unfold _get_weekly_alphas. simpl arch_not. simpl arch_eq.
    cbv iota. unfold unpack7, bind at 1. rewrite Hm. unfold bind at 1.
    rewrite Hi. unfold bind at 1. unfold magnitude_keys in Hk. rewrite Hk.
    reflexivity. }
  assert (Hup' : a <= m /\ b <= m /\ c <= m /\ d <= m /\ e <= m /\ f <= m).
  { repeat split; apply Hup; simpl; tauto. }
  assert (Hbefore : forall j y, (j < i)%nat ->
            nth_error [a; b; c; d; e; f] j = Some y -> y < m) by exact Hfirst.
  assert (Hi6 : (i < List.length [a; b; c; d; e; f])%nat)
    by (apply nth_error_Some; rewrite Hn; discriminate).
  simpl in Hi6.
  assert (Hcase : exists k, getname magnitude_keys i = Ok k /\
                            key_pos k = i /\ In k magnitude_keys).
  { do 6 (destruct i as [|i]; [eexists; split; [reflexivity|];
                               split; [reflexivity | simpl; tauto]|]).
    lia. }
  destruct Hcase as [k [Hk [Hpos Hin]]].
  assert (Hfield : field [a; b; c; d; e; f; g] k = m).
  { unfold field. rewrite Hpos.
    clear - Hn Hi6.
    do 6 (destruct i as [|i]; [simpl in *; now injection Hn|]). lia. }
  assert (Hle : forall k', In k' magnitude_keys ->
                  field [a; b; c; d; e; f; g] k' <= field [a; b; c; d; e; f; g] k).
  { intros k' Hk'. rewrite Hfield. simpl in Hk'.
    decompose [or] Hk'; subst; try contradiction; unfold field; simpl; tauto. }
  assert (Hlt : forall k', (key_pos k' < key_pos k)%nat ->
                  field [a; b; c; d; e; f; g] k' < field [a; b; c; d; e; f; g] k).
  { intros k' Hk'. rewrite Hfield. rewrite Hpos in Hk'.
    apply (Hbefore (key_pos k')); [exact Hk'|].
    destruct k'; try reflexivity. simpl in Hk'. lia. }
  exists k, (set weekly_default_alphas k (weekly_default_alphas !! k * 1.08)).
  split; [exact (Hsel k Hk)|]. split; [reflexivity|].
  split; [exact Hin|]. split; [exact Hle|]. split; [exact Hlt|].
  exists k. split; [exact Hin|]. split; [exact Hle|]. split.
  - destruct k; reflexivity.
  - intros k' Hne. destruct k, k'; try reflexivity; contradiction.
Qed.


(** C3, amended.  For "One Dimensional" the weekly dispersion stage performs
    the runtime selection: on a projected 7-tuple it returns the weekly
    defaults with exactly one coefficient multiplied by 1.08, that of the
    first magnitude stat whose projected value is the largest of the six.
    The monthly stage performs no selection: whatever the projected stats,
    it uses the fixed table (0.890, 0.593, 0.593, 0.602, 0.602, 0.602,
    0.077), in which every coefficient differs from its monthly default. *)
Theorem one_dimensional_alphas (p : list R) (Hlen : List.length p = 7%nat) :
  (exists k alphas,
      _get_weekly_alphas (Some "One Dimensional") p = Ok alphas /\
      alphas = set weekly_default_alphas k (weekly_default_alphas !! k * 1.08) /\
      In k magnitude_keys /\
      (forall k', In k' magnitude_keys -> field p k' <= field p k) /\
      (forall k', (key_pos k' < key_pos k)%nat -> field p k' < field p k) /\
      signature_boost weekly_default_alphas alphas p) /\
  _get_monthly_alphas (Some "One Dimensional")
    = mkdict 0.890 0.593 0.593 0.602 0.602 0.602 0.077 /\
  (forall k, _get_monthly_alphas (Some "One Dimensional") !! k
             <> monthly_default_alphas !! k).
Proof.
  split; [now apply weekly_signature_selection|].
  split; [reflexivity | intros k; destruct k; simpl; lra].
Qed.

Lemma one_dimensional_alphas_witness :
  _get_weekly_alphas (Some "One Dimensional") [20; 5; 5; 2; 1.5; 2; 0.55]
    = Ok (mkdict (1.418 * 1.08) 0.945 0.945 0.958 0.958 0.958 0.07) /\
  _get_monthly_alphas (Some "One Dimensional")
    = mkdict 0.890 0.593 0.593 0.602 0.602 0.602 0.077.
Proof.
  destruct (one_dimensional_alphas [20; 5; 5; 2; 1.5; 2; 0.55] eq_refl)
    as [[k [alphas [Hal [Heq [Hin [Hle _]]]]]] [Hmonthly _]].
  split; [|exact Hmonthly].
  rewrite Hal, Heq. clear Hal Heq.
  pose proof (Hle Kpts ltac:(simpl; tauto)) as Hpts.
  unfold field in Hpts.
  destruct k; simpl in Hpts; try lra; reflexivity.
Defined.

End SignatureStat.

(** *** The stages of the pipeline on well-formed input *)

Section Stages.
Import TimeframeAlgorithm.

Lemma arch_eq_true (a : archetype) (s : string) :
  (a == s) = true -> a = Some s.
Proof.
  destruct a as [t|]; simpl; [|discriminate].
  intros H. apply String.eqb_eq in H. now subst.
Qed.



Lemma weekly_alphas_positive (a : archetype) (p : list R) :
  List.length p = 7%nat ->
  exists alphas, _get_weekly_alphas a p = Ok alphas /\
                 forall k, 0 < alphas !! k.
Proof.
  intros Hlen. destruct (a == "One Dimensional") eqn:E.
  - apply arch_eq_true in E. subst a.
    destruct (weekly_signature_selection p Hlen)
      as [k [alphas [Hal [Heq _]]]].
    exists alphas. split; [exact Hal|]. subst alphas.
    intros k'. destruct k, k'; simpl; lra.
  - unfold _get_weekly_alphas. rewrite E.
    split_ifs; eexists; (split; [reflexivity|]);
      intros k; destruct k; simpl; lra.
Qed.

Lemma monthly_alphas_positive (a : archetype) (k : key) :
  0 < _get_monthly_alphas a !! k.
Proof.
  unfold _get_monthly_alphas. split_ifs; destruct k; simpl; lra.
Qed.

Lemma sqrt_floor (x : R) :
  math_sqrt (Rmax x 0.1) = Ok (sqrt (Rmax x 0.1)) /\ 0 < sqrt (Rmax x 0.1).
Proof.
  pose proof (Rmax_r x 0.1) as Hm. split.
  - unfold math_sqrt. destruct (Rlt_dec _ 0); [lra|reflexivity].
  - apply sqrt_lt_R0. lra.
Qed.

(** The dispersion stage returns on every projected 7-tuple, for every
    timeframe string and archetype, and each of its seven entries is
    positive. *)
Lemma std_devs_positive (p : list R) (timeframe : string) (a : archetype) :
  List.length p = 7%nat ->
  exists std_devs,
    calculate_standard_deviations p timeframe a = Ok std_devs /\
    forall k, 0 < std_devs !! k.
Proof.
  intros Hlen.
  assert (Hal : exists alphas,
    (if timeframe =s "weekly" then _get_weekly_alphas a p
     else if timeframe =s "monthly" then Ok (_get_monthly_alphas a)
     else Ok (mkdict 0.794 0.529 0.529 0.537 0.537 0.537 0.07)) = Ok alphas /\
    forall k, 0 < alphas !! k).
  { destruct (timeframe =s "weekly"); [now apply weekly_alphas_positive|].
    destruct (timeframe =s "monthly"); eexists; (split; [reflexivity|]).
    - apply monthly_alphas_positive.
    - intros k; destruct k; simpl; lra. }
  destruct Hal as [alphas [Hal Hpos]].
  unfold calculate_standard_deviations. rewrite Hal. clear Hal.
  seven p. simpl unpack7. cbv beta iota delta [bind].
  repeat match goal with
         | |- context [math_sqrt (Rmax ?x 0.1)] =>
             let H := fresh in
             destruct (sqrt_floor x) as [H ?]; rewrite H; clear H
         end.
  eexists. split; [reflexivity|].
  intros k. pose proof (Hpos k) as Hk.
  destruct k; simpl in *; try apply Rmult_lt_0_compat; assumption.
Qed.



Lemma py_div_nonzero (x y : R) : y <> 0 -> py_div x y = Ok (x / y).
Proof. intros H. unfold py_div. now destruct (Req_dec_T y 0). Qed.

(** The scoring stage on 7-tuples and nonzero dispersions. *)
Lemma z_scores_value (a0 a1 a2 a3 a4 a5 a6 p0 p1 p2 p3 p4 p5 p6 : R)
    (sd : dict) :
  (forall k, sd !! k <> 0) ->
  calculate_z_scores [a0; a1; a2; a3; a4; a5; a6]
    [p0; p1; p2; p3; p4; p5; p6] sd
  = Ok (mkdict ((a0 - p0) / sd !! Kpts) ((a1 - p1) / sd !! Kreb)
          ((a2 - p2) / sd !! Kast) ((p3 - a3) / sd !! Kto)
          ((a4 - p4) / sd !! Kstocks) ((a5 - p5) / sd !! Kthreepm)
          ((a6 - p6) / sd !! Kts)).
Proof.
  intros Hsd. unfold calculate_z_scores. simpl unpack7.
  cbv beta iota delta [bind].
  rewrite !py_div_nonzero by apply Hsd. reflexivity.
Qed.

Lemma z_scores_return (actual_avg p : list R) (sd : dict) :
  List.length actual_avg = 7%nat -> List.length p = 7%nat ->
  (forall k, sd !! k <> 0) ->
  exists z, calculate_z_scores actual_avg p sd = Ok z.
Proof.
  intros Ha Hp Hsd. seven actual_avg. seven p.
  eexists. now apply z_scores_value.
Qed.

Lemma scaled_quotient_lt (w s x y : R) :
  0 < w -> 0 < s -> x < y -> w * (x / s) < w * (y / s).
Proof.
  intros Hw Hs Hxy. apply Rmult_lt_compat_l; [exact Hw|].
  unfold Rdiv. apply Rmult_lt_compat_r; [|exact Hxy].
  now apply Rinv_0_lt_compat.
Qed.

(** Monotonicity of the composite score in one actual stat, for any
    dispersion vector with positive entries. *)
Lemma pps_monotone_positive_dispersion (actual p : list R) (sd : dict)
    (a : archetype) (k : key) (v : R) :
  List.length actual = 7%nat -> List.length p = 7%nat ->
  (forall k', 0 < sd !! k') ->
  field actual k < v ->
  exists z z',
    calculate_z_scores actual p sd = Ok z /\
    calculate_z_scores (with_field actual k v) p sd = Ok z' /\
    (k <> Kto -> calculate_pps z a < calculate_pps z' a) /\
    (k = Kto -> calculate_pps z' a < calculate_pps z a).
Proof.
  intros Ha Hp Hsd Hv. seven actual. seven p.
  assert (Hnz : forall k', sd !! k' <> 0).
  { intros k'. pose proof (Hsd k'). lra. }
  pose proof (pps_weights_positive a) as Hw.
  assert (Hall : forall k', 0 < pps_weights a !! k' /\ 0 < sd !! k')
    by (intros k'; split; [apply Hw | apply Hsd]).
  pose proof (Hall Kpts) as [? ?]. pose proof (Hall Kreb) as [? ?].
  pose proof (Hall Kast) as [? ?]. pose proof (Hall Kto) as [? ?].
  pose proof (Hall Kstocks) as [? ?]. pose proof (Hall Kthreepm) as [? ?].
  pose proof (Hall Kts) as [? ?]. clear Hall Hw.
  destruct k; unfold field in Hv; simpl in Hv;
    unfold with_field; simpl firstn; simpl skipn; simpl app;
    do 2 eexists;
    (split; [now apply z_scores_value|]);
    (split; [now apply z_scores_value|]);
    (split; intros Hk; try discriminate; try contradiction);
    unfold calculate_pps, sum, keys; simpl in *;
    match goal with
    | Hlt : ?x < ?y |- context [?w * ((?y - ?c) / ?s)] =>
        pose proof (scaled_quotient_lt w s (x - c) (y - c)
                      ltac:(assumption) ltac:(assumption) ltac:(lra))
    | Hlt : ?x < ?y |- context [?w * ((?c - ?y) / ?s)] =>
        pose proof (scaled_quotient_lt w s (c - y) (c - x)
                      ltac:(assumption) ltac:(assumption) ltac:(lra))
    end; lra.
Qed.




Lemma weights_total (a : archetype) :
  v_pts (pps_weights a) + v_reb (pps_weights a) + v_ast (pps_weights a)
  + v_to (pps_weights a) + v_stocks (pps_weights a)
  + v_threepm (pps_weights a) + v_ts (pps_weights a) = 1.
Proof.
  unfold pps_weights, _get_archetype_weights. split_ifs; simpl; lra.
Qed.





(** The composite score is a weighted average of the seven z-scores. *)
Lemma pps_weighted_average (z : dict) (a : archetype) (lo hi : R) :
  (forall k, lo <= z !! k) -> (forall k, z !! k <= hi) ->
  lo <= calculate_pps z a <= hi.
Proof.
  intros Hlo Hhi.
  pose proof (weights_total a) as Hsum.
  pose proof (pps_weights_positive a) as Hw.
  unfold calculate_pps, sum, keys. simpl.
  pose proof (Hw Kpts) as W0. pose proof (Hw Kreb) as W1.
  pose proof (Hw Kast) as W2. pose proof (Hw Kto) as W3.
  pose proof (Hw Kstocks) as W4. pose proof (Hw Kthreepm) as W5.
  pose proof (Hw Kts) as W6.
  pose proof (Hlo Kpts) as L0. pose proof (Hlo Kreb) as L1.
  pose proof (Hlo Kast) as L2. pose proof (Hlo Kto) as L3.
  pose proof (Hlo Kstocks) as L4. pose proof (Hlo Kthreepm) as L5.
  pose proof (Hlo Kts) as L6.
  pose proof (Hhi Kpts) as U0. pose proof (Hhi Kreb) as U1.
  pose proof (Hhi Kast) as U2. pose proof (Hhi Kto) as U3.
  pose proof (Hhi Kstocks) as U4. pose proof (Hhi Kthreepm) as U5.
  pose proof (Hhi Kts) as U6.
  simpl in *. clear Hw Hlo Hhi.
  split; nra.
Qed.








End Stages.

(** *** Monotonicity of the composite score and positivity of the price *)

Section Pipeline.
Import TimeframeAlgorithm.

(** C8.  Take any projected 7-tuple, the dispersions the dispersion stage
    derives from it (for any timeframe and archetype), any archetype for the
    weights, and any actual 7-tuple, all of magnitude at most 1000.  Both the
    scoring of the actual tuple and the scoring of the tuple with one stat
    raised return.  Raising points, rebounds, assists, stocks, three-pointers
    or the shooting percentage never lowers the PPS, and raises it strictly
    when the stat goes up by 1e-6 or more; raising turnovers never raises the
    PPS, and lowers it strictly when they go up by 1e-6 or more. *)
Theorem pps_monotone_in_actual_stats
    (actual p : list R) (timeframe : string) (a_disp a : archetype)
    (k : key) (v : R)
    (Hactual : List.length actual = 7%nat) (Hp : List.length p = 7%nat)
    (Hmag : within 1000 actual /\ within 1000 p /\ v <= 1000)
    (Hv : field actual k < v) :
  exists std_devs z z',
    calculate_standard_deviations p timeframe a_disp = Ok std_devs /\
    calculate_z_scores actual p std_devs = Ok z /\
    calculate_z_scores (with_field actual k v) p std_devs = Ok z' /\
    (k <> Kto ->
     calculate_pps z a <= calculate_pps z' a /\
     (field actual k + 1e-6 <= v -> calculate_pps z a < calculate_pps z' a)) /\
    (k = Kto ->
     calculate_pps z' a <= calculate_pps z a /\
     (field actual k + 1e-6 <= v -> calculate_pps z' a < calculate_pps z a)).
Proof.
  destruct (std_devs_positive p timeframe a_disp Hp) as [sd [Hsd Hpos]].
  destruct (pps_monotone_positive_dispersion actual p sd a k v
              Hactual Hp Hpos Hv) as [z [z' [Hz [Hz' [Hup Hdown]]]]].
  exists sd, z, z'. repeat (split; [assumption|]).
  split; intros Hk.
  - specialize (Hup Hk). split; [lra | intros _; exact Hup].
  - specialize (Hdown Hk). split; [lra | intros _; exact Hdown].
Qed.

Lemma pps_monotone_in_actual_stats_witness :
  exists std_devs z z',
    calculate_standard_deviations [21; 5.5; 5; 2; 1.5; 2; 0.565] "weekly"
      (Some "Role Players") = Ok std_devs /\
    calculate_z_scores [25; 6; 6; 1; 2; 3; 0.60]
      [21; 5.5; 5; 2; 1.5; 2; 0.565] std_devs = Ok z /\
    calculate_z_scores [25; 6; 6; 2; 2; 3; 0.60]
      [21; 5.5; 5; 2; 1.5; 2; 0.565] std_devs = Ok z' /\
    calculate_pps z' (Some "Role Players")
    < calculate_pps z (Some "Role Players").
Proof.
  destruct (pps_monotone_in_actual_stats [25; 6; 6; 1; 2; 3; 0.60]
              [21; 5.5; 5; 2; 1.5; 2; 0.565] "weekly" (Some "Role Players")
              (Some "Role Players") Kto 2 eq_refl eq_refl
              ltac:(split; [in_range | split; [in_range | lra]])
              ltac:(unfold field; simpl; lra))
    as [sd [z [z' [Hsd [Hz [Hz' [_ Hto]]]]]]].
  exists sd, z, z'. repeat split; try assumption.
  apply (Hto eq_refl). unfold field. simpl. lra.
Defined.



End Pipeline.

(** *** Where binary64 arithmetic departs from the real numbers

    Evaluations of the engine on floats, at inputs where rounding or overflow
    decides the outcome. *)

Section Rounding.
Import PrimFloat.
Local Open Scope float_scope.

(** The weekly scenario of the design document, run on floats: the stages
    before the weighted sum, and the direction of the move. *)
Example binary64_weekly_run :
  exists r,
    Binary64.simulate_timeframe [75; 18; 18; 3; 6; 9; 1.8] 3
      [20; 5; 5; 2; 1.5; 2; 0.55] [22; 6; 5; 2; 1.5; 2; 0.58] 35 "weekly"
      false None = Ok r /\
    Binary64.projected_stats r = [21; 5.5; 5; 2; 1.5; 2; 0.565] /\
    Binary64.actual_averages r = [25; 6; 6; 1; 2; 3; 0.6] /\
    Binary64.get (Binary64.standard_deviations r) Kpts = 6.498092335447381 /\
    Binary64.get (Binary64.z_scores r) Kpts = 0.6155652757009659 /\
    Binary64.get (Binary64.z_scores r) Kto = 0.7381072872510934 /\
    (0 <? Binary64.raw_delta r) = true /\
    (Binary64.old_price r <? Binary64.new_price r) = true.
Proof.
  eexists. split; [vm_compute; reflexivity|].
  vm_compute. repeat split.
Qed.

(** C1, as stated, fails: on the gain branch a raw delta of 1.4e154 has a
    square beyond the largest float, [raw_delta**2] raises OverflowError and
    [apply_dampening] returns no value. *)
Lemma apply_dampening_gain_overflows :
  (0 <=? 1.4e154) = true /\
  Binary64.apply_dampening 1.4e154 "weekly" None = Raise OverflowError /\
  ~ (exists d, Binary64.apply_dampening 1.4e154 "weekly" None = Ok d).
Proof.
  split; [reflexivity|]. split; [vm_compute; reflexivity|].
  intros [d Hd]. vm_compute in Hd. discriminate.
Qed.

(** C2, as stated, fails: at a raw delta of -1e8 the square is 1e16, adding
    0.18 rounds back to 1e16, the quotient is exactly 1.0 and the dampened
    delta is exactly -1.0, not above it. *)
Lemma apply_dampening_loss_reaches_floor :
  (-1e8 <? 0) = true /\
  Binary64.apply_dampening (-1e8) "weekly" None = Ok (-1) /\
  ~ (exists d,
       Binary64.apply_dampening (-1e8) "weekly" None = Ok d /\
       (-1 <? d) = true).
Proof.
  split; [reflexivity|]. split; [vm_compute; reflexivity|].
  intros [d [Hd Hlt]]. vm_compute in Hd. injection Hd as <-.
  vm_compute in Hlt. discriminate.
Qed.



(** C8, as stated, fails: on the projected tuple (21, 5.5, 5, 2, 1.5, 2,
    0.565), weekly dispersions and weights of "Role Players", raising the
    actual points from 0.5 to the next float above 0.5 is absorbed by the
    rounding of [pts - proj_pts]: the z-scores are the same floats, and so is
    the PPS, which does not strictly increase. *)
Lemma pps_unchanged_by_a_small_increase :
  exists sd z z',
    Binary64.calculate_standard_deviations [21; 5.5; 5; 2; 1.5; 2; 0.565]
      "weekly" (Some "Role Players") = Ok sd /\
    Binary64.calculate_z_scores [0.5; 6; 6; 1; 2; 3; 0.6]
      [21; 5.5; 5; 2; 1.5; 2; 0.565] sd = Ok z /\
    Binary64.calculate_z_scores [0.5000000000000001; 6; 6; 1; 2; 3; 0.6]
      [21; 5.5; 5; 2; 1.5; 2; 0.565] sd = Ok z' /\
    (0.5 <? 0.5000000000000001) = true /\
    z' = z /\
    (Binary64.calculate_pps z (Some "Role Players")
     <? Binary64.calculate_pps z' (Some "Role Players")) = false.
Proof.
  do 3 eexists. split; [vm_compute; reflexivity|].
  split; [vm_compute; reflexivity|]. split; [vm_compute; reflexivity|].
  vm_compute. repeat split.
Qed.

End Rounding.

(** *** Worked scenarios *)

Section Scenarios.
Import TimeframeAlgorithm.

(** The 50/50 blend of season (20, 5, 5, 2, 1.5, 2, 0.55) and recent
    (22, 6, 5, 2, 1.5, 2, 0.58) averages, without archetype. *)
Example scenario_projection :
  exists p,
    calculate_projected_stats [20; 5; 5; 2; 1.5; 2; 0.55]
      [22; 6; 5; 2; 1.5; 2; 0.58] "weekly" false None = Ok p /\
    p = [21; 5.5; 5; 2; 1.5; 2; 0.565].
Proof.
  eexists. split; [reflexivity|]. simpl.
  repeat (f_equal; try lra).
Qed.

(** The weekly points dispersion of that projection is [1.418 * sqrt 21]. *)
Example scenario_dispersion :
  exists sd,
    calculate_standard_deviations [21; 5.5; 5; 2; 1.5; 2; 0.565] "weekly" None
      = Ok sd /\
    sd !! Kpts = 1.418 * sqrt 21 /\ sd !! Kts = 0.07.
Proof.
  unfold calculate_standard_deviations. simpl unpack7.
  cbv beta iota delta [bind]. simpl _get_weekly_alphas. cbv beta iota.
  repeat match goal with
         | |- context [math_sqrt (Rmax ?x 0.1)] =>
             let H := fresh in
             destruct (sqrt_floor x) as [H _]; rewrite H; clear H
         end.
  eexists. split; [reflexivity|]. simpl. split; [|reflexivity].
  rewrite Rmax_left by lra. reflexivity.
Qed.

(** A raw delta of exactly 0 is on the gain branch and is dampened to 0. *)
Example scenario_zero_delta (timeframe : string) (a : archetype) :
  apply_dampening 0 timeframe a = Ok 0.
Proof.
  destruct (gain_branch_cases 0 timeframe a) as [k [_ Heq]]; [lra|].
  rewrite Heq, upside_value by (rewrite Rabs_R0; lra). f_equal.
  unfold Rdiv. rewrite Rmult_0_l. apply Rmin_left.
  unfold timeframe_cap. split_ifs; lra.
Qed.

(** Turnovers score with the inverted sign: one actual turnover against two
    projected gives a positive z-score. *)
Example scenario_turnover_sign (sd : dict) :
  (forall k, 0 < sd !! k) ->
  exists z,
    calculate_z_scores [25; 6; 6; 1; 2; 3; 0.60]
      [21; 5.5; 5; 2; 1.5; 2; 0.565] sd = Ok z /\
    0 < z !! Kto.
Proof.
  intros Hsd. eexists. split.
  - apply z_scores_value. intros k. pose proof (Hsd k). lra.
  - simpl. apply Rdiv_lt_0_compat; [lra | apply (Hsd Kto)].
Qed.

End Scenarios.

(** ** Further properties of the engine *)

(** *** The standalone weekly engine and the unified one *)

Section WeeklyRefinement.

Lemma weekly_projection_agrees (season_avg recent_avg : list R)
    (use_2023_stats : bool) (a : archetype) :
  WeeklyAlgorithm.calculate_projected_stats season_avg recent_avg a
  = TimeframeAlgorithm.calculate_projected_stats season_avg recent_avg
      "weekly" use_2023_stats a.
Proof.
  unfold WeeklyAlgorithm.calculate_projected_stats,
    TimeframeAlgorithm.calculate_projected_stats.
  change ("weekly" =s "weekly") with true. cbv iota.
  rewrite !andb_true_r. reflexivity.
Qed.

Lemma weekly_weights_agree (a : archetype) :
  WeeklyAlgorithm._get_archetype_weights a = TimeframeAlgorithm.pps_weights a.
Proof.
  unfold TimeframeAlgorithm.pps_weights.
  destruct a as [s|]; simpl; [|reflexivity].
  destruct (s =s "") eqn:He; [|reflexivity].
  apply String.eqb_eq in He. subst s. reflexivity.
Qed.

(** X1.  On every input the standalone [WeeklyAlgorithm.simulate_weekly] and
    the unified [TimeframeAlgorithm.simulate_timeframe] called with timeframe
    "weekly" have the same outcome: the same record, or the same exception. *)
Theorem simulate_weekly_agrees_with_unified
    (actual_totals : list R) (games : Z) (season_avg recent_avg : list R)
    (price : R) (use_2023_stats : bool) (a : archetype) :
  WeeklyAlgorithm.simulate_weekly actual_totals games season_avg recent_avg
    price a
  = TimeframeAlgorithm.simulate_timeframe actual_totals games season_avg
      recent_avg price "weekly" use_2023_stats a.
Proof.
  unfold WeeklyAlgorithm.simulate_weekly,
    TimeframeAlgorithm.simulate_timeframe.
  rewrite (weekly_projection_agrees _ _ use_2023_stats).
  apply bind_ext; intros p.
  change (WeeklyAlgorithm.calculate_standard_deviations p a)
    with (TimeframeAlgorithm.calculate_standard_deviations p "weekly" a).
  apply bind_ext; intros sd.
  apply bind_ext; intros avg.
  apply bind_ext; intros z.
  unfold WeeklyAlgorithm.calculate_pps, TimeframeAlgorithm.calculate_pps.
  rewrite weekly_weights_agree.
  apply bind_ext; intros d.
  reflexivity.
Qed.

End WeeklyRefinement.

(** *** Order properties of the two dampening curves *)

Section CurveOrder.
Import TimeframeAlgorithm.

Lemma quotient_le (x y sx sy : R) :
  0 <= x -> x <= y -> 0 < sy -> sy <= sx -> x / sx <= y / sy.
Proof.
  intros Hx Hxy Hsy Hs.
  assert (Hsx : 0 < sx) by lra.
  assert (Hi : / sx <= / sy) by (apply Rinv_le_contravar; assumption).
  assert (Hp : 0 < / sx) by (now apply Rinv_0_lt_compat).
  unfold Rdiv. nra.
Qed.

Lemma guarded_root_pos (m : R) : 0 < sqrt (Rmax m 0.001).
Proof. apply sqrt_lt_R0. pose proof (Rmax_r m 0.001). lra. Qed.

Lemma guarded_root_le_1 (k x : R) :
  0 <= k -> sqrt (Rmax (1 - k * x ^ 2) 0.001) <= 1.
Proof.
  intros Hk.
  apply Rle_trans with (r2 := sqrt 1); [|rewrite sqrt_1; lra].
  apply sqrt_le_1_alt, Rmax_lub; [|lra].
  assert (0 <= x ^ 2) by (apply pow2_ge_0). nra.
Qed.

(** The gain curve is nondecreasing in the raw delta and in the saturation
    coefficient. *)
Lemma gain_curve_le (k1 k2 cap x y : R) :
  0 <= k1 -> k1 <= k2 -> 0 <= x -> x <= y ->
  Rmin (x / sqrt (Rmax (1 - k1 * x ^ 2) 0.001)) cap
  <= Rmin (y / sqrt (Rmax (1 - k2 * y ^ 2) 0.001)) cap.
Proof.
  intros Hk1 Hk Hx Hxy. apply Rle_min_compat_r.
  apply quotient_le; try assumption.
  - apply guarded_root_pos.
  - apply sqrt_le_1_alt, Rle_max_compat_r.
    assert (0 <= x ^ 2) by apply pow2_ge_0.
    assert (x ^ 2 <= y ^ 2) by (simpl; nra).
    nra.
Qed.

(** On the gain branch the curve never returns less than the raw delta
    capped. *)
Lemma gain_curve_ge_raw (k cap x : R) :
  0 <= k -> 0 <= x ->
  Rmin x cap <= Rmin (x / sqrt (Rmax (1 - k * x ^ 2) 0.001)) cap.
Proof.
  intros Hk Hx. apply Rle_min_compat_r.
  replace x with (x / 1) at 1 by (unfold Rdiv; rewrite Rinv_1; lra).
  apply quotient_le; try lra.
  - apply guarded_root_pos.
  - now apply guarded_root_le_1.
Qed.


End CurveOrder.

(** *** Direction and order of the price move *)

Section PriceDirection.
Import TimeframeAlgorithm.

(** The saturation coefficient of the gain branch depends on the timeframe
    and the archetype only. *)
Lemma gain_branch_coefficient (timeframe : string) (a : archetype) :
  exists k, 0.05 <= k /\
    forall x, x >= 0 ->
      apply_dampening x timeframe a = upside k (timeframe_cap timeframe) x.
Proof.
  unfold apply_dampening, timeframe_cap.
  repeat match goal with
         | |- context [if ?b then _ else _] =>
             lazymatch type of b with bool => destruct b end
         end;
    match goal with
    | |- exists k, _ /\ forall x, _ -> (if _ then upside ?c _ _ else _) = _ =>
        exists c; split; [lra|];
        intros x Hx; destruct (Rge_dec x 0); [reflexivity|contradiction]
    end.
Qed.

Lemma timeframe_cap_range (timeframe : string) :
  10 <= timeframe_cap timeframe <= 50.
Proof. unfold timeframe_cap. split_ifs; lra. Qed.

(** X2.  On the gain branch, for every timeframe string and archetype and
    every raw delta from 0 up to 1.34e154 (where its square is still a
    float), the value [apply_dampening] returns is never below the raw delta
    itself capped at the timeframe's cap: the gain curve divides by a square
    root that is at most 1, so a gain is passed on or enlarged, never
    reduced, until the cap. *)
Theorem gain_never_below_raw
    (x : R) (timeframe : string) (a : archetype) (Hx : 0 <= x <= 1.34e154) :
  exists d,
    apply_dampening x timeframe a = Ok d /\
    Rmin x (timeframe_cap timeframe) <= d <= timeframe_cap timeframe.
Proof.
  destruct (gain_branch_coefficient timeframe a) as [k [Hk Heq]].
  rewrite Heq by lra. rewrite upside_value by (rewrite Rabs_pos_eq; lra).
  eexists. split; [reflexivity|]. split.
  - apply gain_curve_ge_raw; lra.
  - apply Rmin_r.
Qed.

Lemma gain_never_below_raw_witness :
  exists d,
    apply_dampening 0.5 "monthly" (Some "Versatile") = Ok d /\
    0.5 <= d <= 10.
Proof.
  destruct (gain_never_below_raw 0.5 "monthly" (Some "Versatile")
              ltac:(lra)) as [d [Hd [Hlo Hhi]]].
  exists d. split; [exact Hd|].
  change (timeframe_cap "monthly") with 10 in Hlo, Hhi.
  rewrite Rmin_left in Hlo by lra. lra.
Defined.

(** X3.  The dampened delta has the sign of the raw delta, for every
    timeframe string and archetype.  For a raw delta of magnitude between
    1e-6 and 1.34e154 and an old price between 1e-300 and 1e300, the new
    price is above the old one on a positive raw delta and below it on a
    negative one; on a raw delta of 0 the dampened delta is 0 and the price
    is unchanged. *)
Theorem price_moves_with_sign_of_raw_delta
    (x price : R) (timeframe : string) (a : archetype)
    (Hx : Rabs x <= 1.34e154) (Hprice : 1e-300 <= price <= 1e300) :
  exists d,
    apply_dampening x timeframe a = Ok d /\
    (1e-6 <= x -> 0 < d /\ price < fst (calculate_new_price price d)) /\
    (x = 0 -> d = 0 /\ fst (calculate_new_price price d) = price) /\
    (x <= -1e-6 -> d < 0 /\ fst (calculate_new_price price d) < price).
Proof.
  unfold calculate_new_price, fst.
  destruct (Rlt_le_dec x 0) as [Hneg|Hpos].
  - destruct (loss_curve_bounds x Hneg) as [_ Hd].
    rewrite (loss_branch_value x timeframe a)
      by (rewrite Rabs_left in Hx by lra; lra).
    eexists. split; [reflexivity|].
    repeat split; intros; try lra; nra.
  - destruct (gain_branch_coefficient timeframe a) as [k [Hk Heq]].
    rewrite Heq by lra. rewrite upside_value by exact Hx.
    pose proof (timeframe_cap_range timeframe) as Hcap.
    pose proof (guarded_root_pos (1 - k * x ^ 2)) as Hs.
    eexists. split; [reflexivity|].
    split; [|split]; intros Hx'; try lra.
    + assert (Hq : 0 < x / sqrt (Rmax (1 - k * x ^ 2) 0.001))
        by (apply Rdiv_lt_0_compat; lra).
      assert (Hd : 0 < Rmin (x / sqrt (Rmax (1 - k * x ^ 2) 0.001))
                         (timeframe_cap timeframe))
        by (apply Rmin_glb_lt; lra).
      split; [exact Hd | nra].
    + subst x. unfold Rdiv. rewrite Rmult_0_l, Rmin_left by lra.
      split; [reflexivity | lra].
Qed.

Lemma price_moves_with_sign_of_raw_delta_witness :
  exists d,
    apply_dampening (-0.3) "season" None = Ok d /\
    d < 0 /\ fst (calculate_new_price 20 d) < 20.
Proof.
  destruct (price_moves_with_sign_of_raw_delta (-0.3) 20 "season" None
              ltac:(rewrite Rabs_left; lra) ltac:(lra))
    as [d [Hd [_ [_ Hneg]]]].
  exists d. split; [exact Hd|]. apply Hneg. lra.
Defined.




End PriceDirection.

(** *** The engine without archetypes and the unified one *)

Section NoArchetypeEngine.

Lemma test_projection_agrees (season_avg recent_avg : list R)
    (timeframe : string) (use_2023_stats : bool) :
  TimeframeTestAlgorithm.calculate_projected_stats season_avg recent_avg
    timeframe use_2023_stats
  = TimeframeAlgorithm.calculate_projected_stats season_avg recent_avg
      timeframe use_2023_stats None.
Proof.
  unfold TimeframeTestAlgorithm.calculate_projected_stats,
    TimeframeAlgorithm.calculate_projected_stats.
  simpl arch_eq. cbv iota. simpl andb. cbv iota.
  rewrite bind_Ok.
  destruct (timeframe =s "weekly"); [reflexivity|].
  destruct (timeframe =s "monthly"); [now rewrite bind_Ok | reflexivity].
Qed.

Lemma test_dispersion_agrees (p : list R) (timeframe : string) :
  TimeframeTestAlgorithm.calculate_standard_deviations p timeframe
  = TimeframeAlgorithm.calculate_standard_deviations p timeframe None.
Proof.
  unfold TimeframeTestAlgorithm.calculate_standard_deviations,
    TimeframeAlgorithm.calculate_standard_deviations.
  apply bind_ext. intros [[[[[[x0 x1] x2] x3] x4] x5] x6].
  destruct (timeframe =s "weekly"); [reflexivity|].
  destruct (timeframe =s "monthly"); reflexivity.
Qed.

Lemma test_stages_are_the_unified_ones :
  TimeframeTestAlgorithm.calculate_actual_averages
    = TimeframeAlgorithm.calculate_actual_averages /\
  TimeframeTestAlgorithm.calculate_z_scores
    = TimeframeAlgorithm.calculate_z_scores /\
  TimeframeTestAlgorithm.calculate_pps
    = (fun z => TimeframeAlgorithm.calculate_pps z None) /\
  TimeframeTestAlgorithm.calculate_dis
    = (fun s => TimeframeAlgorithm.calculate_dis s None) /\
  TimeframeTestAlgorithm.calculate_raw_delta
    = (fun s d => TimeframeAlgorithm.calculate_raw_delta s d None) /\
  TimeframeTestAlgorithm.calculate_new_price
    = TimeframeAlgorithm.calculate_new_price.
Proof. repeat split; reflexivity. Qed.

Lemma test_dampening_off_season (x : R) (timeframe : string) :
  timeframe <> "weekly" -> timeframe <> "monthly" ->
  TimeframeTestAlgorithm.apply_dampening x timeframe
  = TimeframeAlgorithm.apply_dampening x timeframe None.
Proof.
  intros Hw Hm.
  unfold TimeframeTestAlgorithm.apply_dampening,
    TimeframeAlgorithm.apply_dampening.
  rewrite (eqb_neq_false _ _ Hw), (eqb_neq_false _ _ Hm). reflexivity.
Qed.

Lemma test_dampening_in_season (x : R) (timeframe : string) :
  timeframe = "weekly" \/ timeframe = "monthly" ->
  (x < 0 ->
   TimeframeTestAlgorithm.apply_dampening x timeframe
   = TimeframeAlgorithm.apply_dampening x timeframe None) /\
  (0 <= x ->
   TimeframeTestAlgorithm.apply_dampening x timeframe
   = TimeframeAlgorithm.upside 0.1 10 x /\
   TimeframeAlgorithm.apply_dampening x timeframe None
   = TimeframeAlgorithm.upside 0.5 10 x).
Proof.
  intros Htf. split; intros Hx.
  - unfold TimeframeTestAlgorithm.apply_dampening,
      TimeframeAlgorithm.apply_dampening.
    destruct (Rge_dec x 0); [lra|reflexivity].
  - unfold TimeframeTestAlgorithm.apply_dampening,
      TimeframeAlgorithm.apply_dampening.
    destruct (Rge_dec x 0); [|lra].
    destruct Htf as [-> | ->]; split; reflexivity.
Qed.

(** X5.  For the timeframe "season", and for every string other than
    "weekly" and "monthly", the engine without archetypes
    ([TimeframeTestAlgorithm]) and the unified engine called without an
    archetype have the same outcome on every input: the same record, or the
    same exception (the invalid-timeframe error included). *)
Theorem no_archetype_engine_agrees_off_weekly_monthly
    (actual_totals : list R) (games : Z) (season_avg recent_avg : list R)
    (price : R) (tf : string) (use_2023_stats : bool)
    (Hw : tf <> "weekly") (Hm : tf <> "monthly") :
  TimeframeTestAlgorithm.simulate_timeframe actual_totals games season_avg
    recent_avg price tf use_2023_stats
  = TimeframeAlgorithm.simulate_timeframe actual_totals games season_avg
      recent_avg price tf use_2023_stats None.
Proof.
  unfold TimeframeTestAlgorithm.simulate_timeframe,
    TimeframeAlgorithm.simulate_timeframe.
  destruct test_stages_are_the_unified_ones
    as [-> [-> [-> [-> [-> ->]]]]].
  rewrite test_projection_agrees.
  apply bind_ext; intros p. rewrite test_dispersion_agrees.
  apply bind_ext; intros sd. apply bind_ext; intros avg.
  apply bind_ext; intros z. apply bind_ext; intros d.
  now rewrite test_dampening_off_season.
Qed.

Lemma no_archetype_engine_agrees_off_weekly_monthly_witness :
  TimeframeTestAlgorithm.simulate_timeframe [75; 18; 18; 3; 6; 9; 1.8] 3
    [20; 5; 5; 2; 1.5; 2; 0.55] [22; 6; 5; 2; 1.5; 2; 0.58] 35 "season" true
  = TimeframeAlgorithm.simulate_timeframe [75; 18; 18; 3; 6; 9; 1.8] 3
      [20; 5; 5; 2; 1.5; 2; 0.55] [22; 6; 5; 2; 1.5; 2; 0.58] 35 "season"
      true None.
Proof.
  apply no_archetype_engine_agrees_off_weekly_monthly; discriminate.
Defined.

(** X6.  For "weekly" and "monthly" the two engines differ in the gain
    curve only (coefficient 0.1 without archetypes, 0.5 in the unified engine
    without an archetype).  On every input they raise the same exception, or
    both return; then their records agree on everything computed before the
    dampening stage, the dampened delta of the engine without archetypes is
    never the larger one, and on a negative raw delta the two records are
    equal. *)
Theorem no_archetype_engine_dampens_gains_more
    (actual_totals : list R) (games : Z) (season_avg recent_avg : list R)
    (price : R) (tf : string) (use_2023_stats : bool)
    (Htf : tf = "weekly" \/ tf = "monthly") :
  match
    TimeframeTestAlgorithm.simulate_timeframe actual_totals games season_avg
      recent_avg price tf use_2023_stats,
    TimeframeAlgorithm.simulate_timeframe actual_totals games season_avg
      recent_avg price tf use_2023_stats None
  with
  | Ok r1, Ok r2 =>
      same_before_dampening r1 r2 /\
      dampened_delta r1 <= dampened_delta r2 /\
      (raw_delta r2 < 0 -> r1 = r2)
  | Raise e1, Raise e2 => e1 = e2
  | _, _ => False
  end.
Proof.
  unfold TimeframeTestAlgorithm.simulate_timeframe,
    TimeframeAlgorithm.simulate_timeframe.
  destruct test_stages_are_the_unified_ones
    as [-> [-> [-> [-> [-> ->]]]]].
  rewrite test_projection_agrees.
  destruct (TimeframeAlgorithm.calculate_projected_stats _ _ _ _ _)
    as [p|e]; simpl bind; [|reflexivity].
  rewrite test_dispersion_agrees.
  destruct (TimeframeAlgorithm.calculate_standard_deviations _ _ _)
    as [sd|e]; simpl bind; [|reflexivity].
  destruct (TimeframeAlgorithm.calculate_actual_averages _ _)
    as [avg|e]; simpl bind; [|reflexivity].
  destruct (TimeframeAlgorithm.calculate_z_scores _ _ _)
    as [z|e]; simpl bind; [|reflexivity].
  destruct (TimeframeAlgorithm.calculate_dis _ _)
    as [d|e]; simpl bind; [|reflexivity].
  set (x := TimeframeAlgorithm.calculate_raw_delta _ _ _).
  destruct (test_dampening_in_season x tf Htf) as [Hloss Hgain].
  destruct (Rlt_le_dec x 0) as [Hx|Hx].
  - rewrite (Hloss Hx).
    destruct (TimeframeAlgorithm.apply_dampening x tf None) as [v|e];
      simpl; [|reflexivity].
    repeat split; auto; lra.
  - destruct (Hgain Hx) as [-> ->]. rewrite !upside_outcome.
    destruct (Rlt_dec (x ^ 2) float_overflow); simpl; [|reflexivity].
    repeat split; try reflexivity.
    + apply gain_curve_le; lra.
    + intros Hneg. unfold raw_delta in Hneg. lra.
Qed.

Lemma no_archetype_engine_dampens_gains_more_witness :
  match
    TimeframeTestAlgorithm.simulate_timeframe [75; 18; 18; 3; 6; 9; 1.8] 3
      [20; 5; 5; 2; 1.5; 2; 0.55] [22; 6; 5; 2; 1.5; 2; 0.58] 35 "weekly"
      false,
    TimeframeAlgorithm.simulate_timeframe [75; 18; 18; 3; 6; 9; 1.8] 3
      [20; 5; 5; 2; 1.5; 2; 0.55] [22; 6; 5; 2; 1.5; 2; 0.58] 35 "weekly"
      false None
  with
  | Ok r1, Ok r2 =>
      same_before_dampening r1 r2 /\
      dampened_delta r1 <= dampened_delta r2 /\
      (raw_delta r2 < 0 -> r1 = r2)
  | Raise e1, Raise e2 => e1 = e2
  | _, _ => False
  end.
Proof.
  apply no_archetype_engine_dampens_gains_more. left. reflexivity.
Defined.

End NoArchetypeEngine.

(** *** The projection stage *)

Section Projection.
Import TimeframeAlgorithm.

Lemma getitem_middle (pre : list R) (x : R) (post : list R) :
  getitem (pre ++ x :: post) (List.length pre) = Ok x.
Proof.
  unfold getitem. rewrite nth_error_app2 by lia.
  now rewrite Nat.sub_diag.
Qed.

Lemma getitem_past_end (l : list R) : getitem l (List.length l) = Raise IndexError.
Proof.
  unfold getitem.
  destruct (nth_error l (List.length l)) eqn:E; [|reflexivity].
  assert (nth_error l (List.length l) <> None) by congruence.
  apply nth_error_Some in H. lia.
Qed.

(** The blending loop, started at any position. *)
Lemma blend_from (s r pre_s pre_r : list R) :
  List.length pre_s = List.length pre_r ->
  mapM (fun i =>
          x <- getitem (pre_s ++ s) i ;;
          y <- getitem (pre_r ++ r) i ;;
          Ok (0.5 * x + 0.5 * y))
       (seq (List.length pre_s) (List.length s))
  = if (List.length s <=? List.length r)%nat then Ok (midpoints s r)
    else Raise IndexError.
Proof.
  revert r pre_s pre_r.
  induction s as [|x s IH]; intros r pre_s pre_r Hpre; [reflexivity|].
  cbn [List.length seq mapM].
  rewrite getitem_middle. cbn [bind].
  destruct r as [|y r].
  - rewrite Hpre, app_nil_r, getitem_past_end. reflexivity.
  - rewrite Hpre, getitem_middle. cbn [bind].
    specialize (IH r (pre_s ++ [x])%list (pre_r ++ [y])%list).
    rewrite <- !app_assoc in IH. cbn [app] in IH.
    rewrite !length_app in IH. cbn [List.length] in IH.
    rewrite !Nat.add_1_r in IH. rewrite <- Hpre.
    rewrite IH by lia.
    cbn [List.length Nat.leb].
    destruct (List.length s <=? List.length r)%nat; reflexivity.
Qed.

Lemma blend_value (s r : list R) :
  blend s r = if (List.length s <=? List.length r)%nat then Ok (midpoints s r)
              else Raise IndexError.
Proof. apply (blend_from s r [] []). reflexivity. Qed.

Lemma scale_one (l : list R) : scale 1 l = l.
Proof.
  unfold scale. rewrite <- (map_id l) at 2.
  apply map_ext. intros x. lra.
Qed.

(** X7.  The projection stage, by timeframe.  For "season" it returns the
    season averages unchanged, whatever the recent averages (even a tuple of
    another length), the flag and the archetype.  For "weekly" and "monthly"
    it raises IndexError when the recent tuple is shorter than the season
    tuple; otherwise it returns the 50/50 midpoints of the two tuples (over
    the length of the season tuple), all multiplied by one archetype factor
    that lies between 0.98 and 1.045. *)
Theorem projection_by_timeframe
    (season_avg recent_avg : list R) (use_2023_stats : bool) (a : archetype) :
  calculate_projected_stats season_avg recent_avg "season" use_2023_stats a
    = Ok season_avg /\
  (forall tf, tf = "weekly" \/ tf = "monthly" ->
     (List.length recent_avg < List.length season_avg)%nat ->
     calculate_projected_stats season_avg recent_avg tf use_2023_stats a
       = Raise IndexError) /\
  (forall tf, tf = "weekly" \/ tf = "monthly" ->
     (List.length season_avg <= List.length recent_avg)%nat ->
     exists m, 0.98 <= m <= 1.045 /\
       calculate_projected_stats season_avg recent_avg tf use_2023_stats a
         = Ok (scale m (midpoints season_avg recent_avg))).
Proof.
  split; [|split].
  - unfold calculate_projected_stats.
    change ("season" =s "weekly") with false.
    change ("season" =s "monthly") with false.
    change ("season" =s "season") with true. cbv iota.
    rewrite !andb_false_r. now destruct use_2023_stats.
  - intros tf Htf Hlen. unfold calculate_projected_stats.
    rewrite blend_value.
    apply Nat.leb_gt in Hlen. rewrite Hlen.
    destruct Htf as [-> | ->]; reflexivity.
  - intros tf Htf Hlen. unfold calculate_projected_stats.
    rewrite blend_value.
    apply Nat.leb_le in Hlen. rewrite Hlen.
    destruct Htf as [-> | ->]; simpl;
      rewrite ?andb_true_r, ?andb_false_r; cbv iota;
      split_ifs;
      match goal with
      | |- exists m, _ /\ Ok (scale ?c _) = _ =>
          exists c; split; [lra | reflexivity]
      | |- _ => exists 1; split; [lra | now rewrite scale_one]
      end.
Qed.

Lemma projection_by_timeframe_witness :
  calculate_projected_stats [20; 5; 5; 2; 1.5; 2; 0.55] [] "season" true
    (Some "Superstars") = Ok [20; 5; 5; 2; 1.5; 2; 0.55] /\
  calculate_projected_stats [20; 5; 5] [22; 6] "weekly" false None
    = Raise IndexError /\
  (exists m, 0.98 <= m <= 1.045 /\
     calculate_projected_stats [20; 5] [22; 6; 9] "monthly" false
       (Some "Versatile") = Ok (scale m (midpoints [20; 5] [22; 6; 9]))).
Proof.
  destruct (projection_by_timeframe [20; 5; 5; 2; 1.5; 2; 0.55] [] true
              (Some "Superstars")) as [H1 _].
  destruct (projection_by_timeframe [20; 5; 5] [22; 6] false None)
    as [_ [H2 _]].
  destruct (projection_by_timeframe [20; 5] [22; 6; 9] false
              (Some "Versatile")) as [_ [_ H3]].
  split; [exact H1|]. split.
  - apply (H2 "weekly"); [left; reflexivity | simpl; lia].
  - apply (H3 "monthly"); [right; reflexivity | simpl; lia].
Defined.

End Projection.

(** *** Dispersion, averaging and scoring *)

Section Scoring.
Import TimeframeAlgorithm.






(** X10.  For every archetype the PPS is a weighted average of the seven
    z-scores: for z-scores of magnitude at most 1e6 it lies between any lower
    bound and any upper bound of the z-scores, up to a slack of 1e-6 that
    absorbs the rounding of the weighted sum. *)
Theorem pps_between_extreme_z_scores
    (z : dict) (a : archetype) (lo hi : R)
    (Hlo : forall k, lo <= z !! k) (Hhi : forall k, z !! k <= hi)
    (Hmag : -1e6 <= lo /\ hi <= 1e6) :
  lo - 1e-6 <= calculate_pps z a <= hi + 1e-6.
Proof.
  pose proof (pps_weighted_average z a lo hi Hlo Hhi). lra.
Qed.

Lemma pps_between_extreme_z_scores_witness :
  -1 - 1e-6
  <= calculate_pps (mkdict 2 0.5 1 (-1) 0 3 0.25) (Some "Bench Warmers")
  <= 3 + 1e-6.
Proof.
  apply (pps_between_extreme_z_scores (mkdict 2 0.5 1 (-1) 0 3 0.25)
           (Some "Bench Warmers") (-1) 3);
    try (intros k; destruct k; simpl; lra); lra.
Defined.

(** X11.  The DIS and raw-delta stages compose to an affine map of the PPS:
    for a PPS of magnitude at most 1e6 and every archetype the raw delta is
    [0.86 * PPS + 0.008], to within [1e-12 * (1 + PPS^2)].  The sign change
    is near [-0.008 / 0.86]: a PPS of -0.01 or less gives a negative raw
    delta (the loss branch of the dampening), a PPS of -0.009 or more a
    positive one; a PPS of 0 is on the gain branch. *)
Theorem raw_delta_affine_in_pps (s : R) (a : archetype)
    (Hs : Rabs s <= 1e6) :
  exists d,
    calculate_dis s a = Ok d /\
    Rabs (calculate_raw_delta s d a - (0.86 * s + 0.008))
    <= 1e-12 * (1 + s ^ 2) /\
    (s <= -0.01 -> calculate_raw_delta s d a < 0) /\
    (-0.009 <= s -> 0 < calculate_raw_delta s d a).
Proof.
  exists (0.3 * s + 0.04). split; [apply calculate_dis_affine|].
  unfold calculate_raw_delta. split; [|split; intros H; lra].
  replace (0.8 * s + 0.2 * (0.3 * s + 0.04) - (0.86 * s + 0.008)) with 0
    by lra.
  rewrite Rabs_R0. assert (0 <= s ^ 2) by apply pow2_ge_0. lra.
Qed.

Lemma raw_delta_affine_in_pps_witness :
  exists d,
    calculate_dis 0 None = Ok d /\ 0 < calculate_raw_delta 0 d None.
Proof.
  destruct (raw_delta_affine_in_pps 0 None ltac:(rewrite Rabs_R0; lra))
    as [d [Hd [_ [_ Hpos]]]].
  exists d. split; [exact Hd|]. apply Hpos. lra.
Defined.

End Scoring.

(** *** The whole pipeline *)

Section WholePipeline.
Import TimeframeAlgorithm.








End WholePipeline.

(** *** The price as a function of the actual totals, the old price and the
    archetype *)

Section PriceAsFunction.
Import TimeframeAlgorithm.





End PriceAsFunction.

Section ArchetypeAndPriceLevel.
Import TimeframeAlgorithm.

(** X15.  The percentage move does not depend on the price level.  Running
    the pipeline at another old price raises the same exception, or returns
    the same record except for the old price it echoes and the new price,
    which is the other old price times the same [1 + dampened_delta]; every
    other field, the percentage change included, is unchanged. *)
Theorem percentage_move_independent_of_price
    (actual_totals : list R) (games : Z) (season_avg recent_avg : list R)
    (price price' : R) (tf : string) (use_2023_stats : bool)
    (a : archetype) :
  simulate_timeframe actual_totals games season_avg recent_avg price' tf
    use_2023_stats a
  = match simulate_timeframe actual_totals games season_avg recent_avg price
            tf use_2023_stats a with
    | Ok r =>
        Ok (mkresult (projected_stats r) (standard_deviations r)
              (actual_averages r) (z_scores r) (pps r) (dis r) (raw_delta r)
              (dampened_delta r) (price' * (1 + dampened_delta r))
              (price_change_pct r) price' (timeframe r) (num_games r))
    | Raise e => Raise e
    end.
Proof.
  unfold simulate_timeframe.
  destruct (calculate_projected_stats _ _ _ _ _) as [p|e];
    cbn [bind]; [|reflexivity].
  destruct (calculate_standard_deviations _ _ _) as [sd|e];
    cbn [bind]; [|reflexivity].
  destruct (calculate_actual_averages _ _) as [avg|e];
    cbn [bind]; [|reflexivity].
  destruct (calculate_z_scores _ _ _) as [z|e]; cbn [bind]; [|reflexivity].
  destruct (calculate_dis _ _) as [d|e]; cbn [bind]; [|reflexivity].
  destruct (apply_dampening _ _ _) as [dd|e]; cbn [bind]; [|reflexivity].
  unfold calculate_new_price.
  cbn [projected_stats standard_deviations actual_averages z_scores pps dis
       raw_delta dampened_delta new_price price_change_pct old_price
       timeframe num_games].
  reflexivity.
Qed.

Lemma arch_eq_unknown (s name : string) :
  ~ In s known_archetypes -> In name known_archetypes ->
  (Some s == name) = false.
Proof.
  intros Hs Hn. simpl. apply String.eqb_neq. intros ->. contradiction.
Qed.

Ltac unknown_archetype H :=
  rewrite ?(arch_eq_unknown _ "Superstars" H),
    ?(arch_eq_unknown _ "Elite Shooters" H),
    ?(arch_eq_unknown _ "Elite Defenders" H),
    ?(arch_eq_unknown _ "High Volume Scorers" H),
    ?(arch_eq_unknown _ "Elite Playmakers" H),
    ?(arch_eq_unknown _ "Rebounding Machines" H),
    ?(arch_eq_unknown _ "Bench Warmers" H),
    ?(arch_eq_unknown _ "High Efficiency" H),
    ?(arch_eq_unknown _ "Turnover Prone" H),
    ?(arch_eq_unknown _ "One Dimensional" H),
    ?(arch_eq_unknown _ "Versatile" H),
    ?(arch_eq_unknown _ "Role Players" H)
    by (simpl; tauto).

(** X16.  An archetype string that is none of the twelve known names is not
    an error: at every stage it selects the same parameters as no archetype,
    so [simulate_timeframe] has the same outcome (record or exception) as
    with [None], on every input and timeframe. *)
Theorem unknown_archetype_is_default
    (actual_totals : list R) (games : Z) (season_avg recent_avg : list R)
    (price : R) (tf : string) (use_2023_stats : bool) (s : string)
    (Hs : ~ In s known_archetypes) :
  simulate_timeframe actual_totals games season_avg recent_avg price tf
    use_2023_stats (Some s)
  = simulate_timeframe actual_totals games season_avg recent_avg price tf
      use_2023_stats None.
Proof.
  assert (Hproj : calculate_projected_stats season_avg recent_avg tf
                    use_2023_stats (Some s)
                  = calculate_projected_stats season_avg recent_avg tf
                      use_2023_stats None).
  { unfold calculate_projected_stats. unknown_archetype Hs. reflexivity. }
  assert (Hsd : forall p, calculate_standard_deviations p tf (Some s)
                          = calculate_standard_deviations p tf None).
  { intros p. unfold calculate_standard_deviations, _get_weekly_alphas,
      _get_monthly_alphas.
    unknown_archetype Hs. simpl arch_not. simpl arch_eq.
    destruct (s =s ""); reflexivity. }
  assert (Hpps : forall z, calculate_pps z (Some s) = calculate_pps z None).
  { intros z. unfold calculate_pps, pps_weights, _get_archetype_weights.
    unknown_archetype Hs. simpl arch_not. destruct (s =s ""); reflexivity. }
  assert (Hdamp : forall x, apply_dampening x tf (Some s)
                            = apply_dampening x tf None).
  { intros x. unfold apply_dampening. unknown_archetype Hs. reflexivity. }
  unfold simulate_timeframe. rewrite Hproj.
  apply bind_ext; intros p. rewrite Hsd.
  apply bind_ext; intros sd. apply bind_ext; intros avg.
  apply bind_ext; intros z. rewrite Hpps.
  change (calculate_dis (calculate_pps z None) (Some s))
    with (calculate_dis (calculate_pps z None) None).
  apply bind_ext; intros d.
  change (calculate_raw_delta (calculate_pps z None) d (Some s))
    with (calculate_raw_delta (calculate_pps z None) d None).
  now rewrite Hdamp.
Qed.

Lemma unknown_archetype_is_default_witness :
  simulate_timeframe [75; 18; 18; 3; 6; 9; 1.8] 3
    [20; 5; 5; 2; 1.5; 2; 0.55] [22; 6; 5; 2; 1.5; 2; 0.58] 35 "monthly"
    false (Some "superstars")
  = simulate_timeframe [75; 18; 18; 3; 6; 9; 1.8] 3
      [20; 5; 5; 2; 1.5; 2; 0.55] [22; 6; 5; 2; 1.5; 2; 0.58] 35 "monthly"
      false None.
Proof.
  apply unknown_archetype_is_default.
  simpl. intros H. decompose [or] H; try discriminate; assumption.
Defined.

(** X17.  At the season timeframe (and for every timeframe string other than
    "weekly" and "monthly") the archetype reaches the result through the PPS
    weights only: two archetypes with the same weight vector give the same
    outcome on every input.  The projection, the dispersion coefficients and
    the dampening curve do not depend on the archetype there. *)
Theorem off_weekly_monthly_archetype_acts_through_weights
    (actual_totals : list R) (games : Z) (season_avg recent_avg : list R)
    (price : R) (tf : string) (use_2023_stats : bool) (a1 a2 : archetype)
    (Hw : tf <> "weekly") (Hm : tf <> "monthly")
    (Hweights : pps_weights a1 = pps_weights a2) :
  simulate_timeframe actual_totals games season_avg recent_avg price tf
    use_2023_stats a1
  = simulate_timeframe actual_totals games season_avg recent_avg price tf
      use_2023_stats a2.
Proof.
  pose proof (eqb_neq_false _ _ Hw) as Ew.
  pose proof (eqb_neq_false _ _ Hm) as Em.
  unfold simulate_timeframe, calculate_projected_stats,
    calculate_standard_deviations, apply_dampening, calculate_pps.
  rewrite Ew, Em, Hweights. rewrite !andb_false_r. reflexivity.
Qed.

Lemma off_weekly_monthly_archetype_acts_through_weights_witness :
  simulate_timeframe [1500; 400; 400; 150; 100; 150; 45] 75
    [20; 5; 5; 2; 1.5; 2; 0.55] [22; 6; 5; 2; 1.5; 2; 0.58] 35 "season"
    true (Some "Superstars")
  = simulate_timeframe [1500; 400; 400; 150; 100; 150; 45] 75
      [20; 5; 5; 2; 1.5; 2; 0.55] [22; 6; 5; 2; 1.5; 2; 0.58] 35 "season"
      true (Some "Versatile").
Proof.
  apply off_weekly_monthly_archetype_acts_through_weights;
    [discriminate | discriminate | reflexivity].
Defined.

End ArchetypeAndPriceLevel.

(** *** The game log: season and recent averages *)

Section GameLog.
Import SportsMarket.

Lemma add_game_value (t0 t1 t2 t3 t4 t5 t6 : R) (game : list R) :
  (7 <= List.length game)%nat ->
  add_game [t0; t1; t2; t3; t4; t5; t6] game
  = Ok [t0 + nth 0 game 0; t1 + nth 1 game 0; t2 + nth 2 game 0;
        t3 + nth 3 game 0; t4 + nth 4 game 0; t5 + nth 5 game 0;
        t6 + nth 6 game 0].
Proof.
  intros Hlen.
  destruct game as [|g0 [|g1 [|g2 [|g3 [|g4 [|g5 [|g6 rest]]]]]]];
    simpl in Hlen; try lia.
  reflexivity.
Qed.

Lemma add_game_short (t0 t1 t2 t3 t4 t5 t6 : R) (game : list R) :
  (List.length game < 7)%nat ->
  add_game [t0; t1; t2; t3; t4; t5; t6] game = Raise IndexError.
Proof.
  intros Hlen.
  destruct game as [|g0 [|g1 [|g2 [|g3 [|g4 [|g5 [|g6 rest]]]]]]];
    simpl in Hlen; try lia; reflexivity.
Qed.

Lemma totals_loop_value (games : list (list R)) :
  Forall (fun game => (7 <= List.length game)%nat) games ->
  forall t0 t1 t2 t3 t4 t5 t6,
    for_each games add_game [t0; t1; t2; t3; t4; t5; t6]
    = Ok [fold_left Rplus (column 0 games) t0;
          fold_left Rplus (column 1 games) t1;
          fold_left Rplus (column 2 games) t2;
          fold_left Rplus (column 3 games) t3;
          fold_left Rplus (column 4 games) t4;
          fold_left Rplus (column 5 games) t5;
          fold_left Rplus (column 6 games) t6].
Proof.
  induction 1 as [|game games Hg _ IH]; intros; [reflexivity|].
  cbn [for_each]. rewrite add_game_value by exact Hg. cbn [bind].
  rewrite IH. reflexivity.
Qed.

Lemma totals_loop_short (games : list (list R)) :
  Exists (fun game => (List.length game < 7)%nat) games ->
  forall t0 t1 t2 t3 t4 t5 t6,
    for_each games add_game [t0; t1; t2; t3; t4; t5; t6] = Raise IndexError.
Proof.
  induction games as [|game games IH]; intros Hex; intros.
  - inversion Hex.
  - cbn [for_each].
    destruct (Nat.lt_ge_cases (List.length game) 7) as [Hs|Hl].
    + now rewrite add_game_short.
    + rewrite add_game_value by exact Hl. cbn [bind].
      apply IH. inversion Hex; subst; [lia | assumption].
Qed.

Lemma fold_plus_shift (l : list R) (acc : R) :
  fold_left Rplus l acc = acc + fold_left Rplus l 0.
Proof.
  revert acc. induction l as [|x l IH]; intros acc; simpl; [lra|].
  rewrite (IH (acc + x)), (IH (0 + x)). lra.
Qed.

Lemma sum_between (l : list R) (lo hi : R) :
  (forall x, In x l -> lo <= x <= hi) ->
  lo * INR (List.length l) <= sum l <= hi * INR (List.length l).
Proof.
  unfold sum. induction l as [|x l IH]; intros H.
  - simpl. lra.
  - cbn [fold_left]. rewrite fold_plus_shift.
    change (List.length (x :: l)) with (S (List.length l)). rewrite S_INR.
    assert (Hx : lo <= x <= hi) by (apply H; now left).
    assert (Hl : forall y, In y l -> lo <= y <= hi)
      by (intros y Hy; apply H; now right).
    specialize (IH Hl). lra.
Qed.

Lemma mean_between (l : list R) (lo hi : R) :
  l <> [] -> (forall x, In x l -> lo <= x <= hi) ->
  lo <= sum l / INR (List.length l) <= hi.
Proof.
  intros Hne H.
  assert (Hn : 0 < INR (List.length l)).
  { apply lt_0_INR. destruct l; [contradiction | simpl; lia]. }
  destruct (sum_between l lo hi H) as [Hlo Hhi].
  split.
  - apply Rmult_le_reg_r with (r := INR (List.length l)); [exact Hn|].
    unfold Rdiv. rewrite Rmult_assoc, Rinv_l by lra. lra.
  - apply Rmult_le_reg_r with (r := INR (List.length l)); [exact Hn|].
    unfold Rdiv. rewrite Rmult_assoc, Rinv_l by lra. lra.
Qed.

Lemma sum_nonnegative (l : list R) :
  (forall x, In x l -> 0 <= x) -> 0 <= sum l.
Proof.
  unfold sum. induction l as [|y l IH]; intros H; simpl; [lra|].
  rewrite fold_plus_shift.
  assert (0 <= y) by (apply H; now left).
  assert (0 <= fold_left Rplus l 0)
    by (apply IH; intros x Hx; apply H; now right).
  lra.
Qed.

(** X18.  On a nonempty game log whose games all have at least seven entries
    [_calculate_season_averages] returns seven averages: entry [i] is the
    sum of stat [i] over the games, added in log order, divided by the number
    of games (entries of a game past the seventh are ignored).  An average of
    nonnegative values is nonnegative, and on a log of at most 10000 games
    with values of magnitude at most 1e6 it lies between any lower and upper
    bound that stat [i] keeps over the log, up to a slack of 1e-3 that
    absorbs the rounding of the sum. *)
Theorem season_averages_are_column_means
    (games : list (list R))
    (Hne : games <> [])
    (Hwf : Forall (fun game => (7 <= List.length game)%nat) games) :
  exists avg,
    _calculate_season_averages games = Ok avg /\
    List.length avg = 7%nat /\
    forall i, (i < 7)%nat ->
      nth i avg 0 = column_mean i games /\
      ((forall game, In game games -> 0 <= nth i game 0) ->
       0 <= nth i avg 0) /\
      forall lo hi,
        (Z.of_nat (List.length games) <= 10000)%Z ->
        -1e6 <= lo -> hi <= 1e6 ->
        (forall game, In game games -> lo <= nth i game 0 <= hi) ->
        lo - 1e-3 <= nth i avg 0 <= hi + 1e-3.
Proof.
  assert (Hn : INR (List.length games) <> 0).
  { apply not_0_INR. destruct games; [contradiction | simpl; lia]. }
  exists (map (fun i => column_mean i games) (seq 0 7)).
  split; [|split; [reflexivity|]].
  - unfold _calculate_season_averages.
    destruct games as [|g gs]; [contradiction|].
    rewrite totals_loop_value by exact Hwf. cbn [bind].
    cbn [mapM]. rewrite !py_div_nonzero by exact Hn. reflexivity.
  - intros i Hi.
    assert (Hnth : nth i (map (fun i => column_mean i games) (seq 0 7)) 0
                   = column_mean i games).
    { do 7 (destruct i as [|i]; [reflexivity|]). lia. }
    rewrite Hnth. split; [reflexivity|].
    assert (Hcol : column i games <> []).
    { unfold column. destruct games; [contradiction | discriminate]. }
    assert (Hlen : List.length (column i games) = List.length games)
      by (unfold column; apply length_map).
    split.
    + intros H0. unfold column_mean.
      apply Rmult_le_pos.
      * apply sum_nonnegative. intros x Hx. unfold column in Hx.
        apply in_map_iff in Hx. destruct Hx as [game [<- Hg]]. now apply H0.
      * left. apply Rinv_0_lt_compat, lt_0_INR.
        destruct games; [contradiction | simpl; lia].
    + intros lo hi _ _ _ Hb. unfold column_mean. rewrite <- Hlen.
      assert (Hm : lo <= sum (column i games)
                         / INR (List.length (column i games)) <= hi).
      { apply mean_between; [exact Hcol|].
        intros x Hx. unfold column in Hx. apply in_map_iff in Hx.
        destruct Hx as [game [<- Hg]]. now apply Hb. }
      lra.
Qed.

Lemma season_averages_are_column_means_witness :
  exists avg,
    _calculate_season_averages
      [[20; 4; 5; 2; 1; 2; 0.5; 99]; [30; 6; 3; 1; 2; 3; 0.6]] = Ok avg /\
    List.length avg = 7%nat /\
    0 <= nth 0 avg 0 /\
    20 - 1e-3 <= nth 0 avg 0 <= 30 + 1e-3.
Proof.
  destruct (season_averages_are_column_means
              [[20; 4; 5; 2; 1; 2; 0.5; 99]; [30; 6; 3; 1; 2; 3; 0.6]]
              ltac:(discriminate)
              ltac:(repeat constructor; simpl; lia))
    as [avg [Havg [Hlen Hall]]].
  exists avg. split; [exact Havg|]. split; [exact Hlen|].
  destruct (Hall 0%nat ltac:(lia)) as [_ [Hpos Hb]].
  split.
  - apply Hpos. intros game [<- | [<- | []]]; simpl; lra.
  - apply Hb; try lra; [simpl; lia|].
    intros game [<- | [<- | []]]; simpl; lra.
Defined.

(** X19.  A game with fewer than seven entries anywhere in a game log makes
    [_calculate_season_averages] raise IndexError. *)
Theorem season_averages_reject_short_games
    (games : list (list R))
    (Hshort : Exists (fun game => (List.length game < 7)%nat) games) :
  _calculate_season_averages games = Raise IndexError.
Proof.
  unfold _calculate_season_averages.
  destruct games as [|g gs]; [inversion Hshort|].
  now rewrite totals_loop_short.
Qed.

Lemma season_averages_reject_short_games_witness :
  _calculate_season_averages
    [[20; 4; 5; 2; 1; 2; 0.5]; [30; 6; 3]] = Raise IndexError.
Proof.
  apply season_averages_reject_short_games.
  apply Exists_cons_tl, Exists_cons_hd. simpl. lia.
Defined.

End GameLog.

Section RecentGames.
Import SportsMarket.

Lemma slice_last (A : Type) (l : list A) (n : Z) :
  (1 <= n <= Z.of_nat (List.length l))%Z ->
  slice_from l (- n) = skipn (List.length l - Z.to_nat n) l.
Proof.
  intros Hn. unfold slice_from.
  destruct (Z.ltb_spec (- n) 0) as [_|H]; [|lia].
  f_equal. lia.
Qed.

Lemma slice_all (A : Type) (l : list A) (n : Z) :
  (n = 0 \/ Z.of_nat (List.length l) <= n)%Z -> slice_from l (- n) = l.
Proof.
  intros Hn. unfold slice_from.
  destruct (Z.ltb_spec (- n) 0) as [H|H].
  - replace (Z.to_nat _) with 0%nat by lia. reflexivity.
  - replace (Z.to_nat _) with 0%nat by lia. reflexivity.
Qed.

Lemma slice_drop (A : Type) (l : list A) (n : Z) :
  (n < 0)%Z -> slice_from l (- n) = skipn (Z.to_nat (- n)) l.
Proof.
  intros Hn. unfold slice_from.
  destruct (Z.ltb_spec (- n) 0) as [H|H]; [lia|].
  destruct (Z.le_ge_cases (- n) (Z.of_nat (List.length l))) as [Hle|Hge].
  - now rewrite Z.min_l.
  - rewrite Z.min_r by exact Hge. rewrite Nat2Z.id.
    rewrite !skipn_all2; [reflexivity | lia | lia].
Qed.

(** X20.  Which games [calculate_last_n_averages] averages.  For a count
    between 1 and the length of the log it is the last [n] games, exactly
    [n] of them.  For a count at or beyond the length of the log, and also
    for the count 0, it is the whole log: a request for the last zero games
    is answered with the season average, not with an empty average.  For a
    negative count it is the log without its first [|n|] games. *)
Theorem last_n_averages_window (games : list (list R)) (n : Z) :
  ((1 <= n <= Z.of_nat (List.length games))%Z ->
   calculate_last_n_averages games n
   = _calculate_season_averages
       (skipn (List.length games - Z.to_nat n) games) /\
   List.length (skipn (List.length games - Z.to_nat n) games) = Z.to_nat n) /\
  ((n = 0 \/ Z.of_nat (List.length games) <= n)%Z ->
   calculate_last_n_averages games n = _calculate_season_averages games) /\
  ((n < 0)%Z ->
   calculate_last_n_averages games n
   = _calculate_season_averages (skipn (Z.to_nat (- n)) games)).
Proof.
  unfold calculate_last_n_averages.
  split; [|split]; intros Hn.
  - destruct (Z.ltb_spec (Z.of_nat (List.length games)) n) as [H|H]; [lia|].
    rewrite slice_last by exact Hn. split; [reflexivity|].
    rewrite length_skipn. lia.
  - destruct (Z.ltb_spec (Z.of_nat (List.length games)) n) as [H|H];
      [reflexivity|].
    now rewrite slice_all.
  - destruct (Z.ltb_spec (Z.of_nat (List.length games)) n) as [H|H]; [lia|].
    now rewrite slice_drop.
Qed.

Lemma last_n_averages_window_witness :
  calculate_last_n_averages
    [[1; 1; 1; 1; 1; 1; 1]; [2; 2; 2; 2; 2; 2; 2]; [4; 4; 4; 4; 4; 4; 4]] 2
  = _calculate_season_averages
      [[2; 2; 2; 2; 2; 2; 2]; [4; 4; 4; 4; 4; 4; 4]] /\
  calculate_last_n_averages
    [[1; 1; 1; 1; 1; 1; 1]; [2; 2; 2; 2; 2; 2; 2]; [4; 4; 4; 4; 4; 4; 4]] 0
  = _calculate_season_averages
      [[1; 1; 1; 1; 1; 1; 1]; [2; 2; 2; 2; 2; 2; 2]; [4; 4; 4; 4; 4; 4; 4]].
Proof.
  destruct (last_n_averages_window
              [[1; 1; 1; 1; 1; 1; 1]; [2; 2; 2; 2; 2; 2; 2];
               [4; 4; 4; 4; 4; 4; 4]] 2) as [Hlast _].
  destruct (last_n_averages_window
              [[1; 1; 1; 1; 1; 1; 1]; [2; 2; 2; 2; 2; 2; 2];
               [4; 4; 4; 4; 4; 4; 4]] 0) as [_ [Hall _]].
  split.
  - apply Hlast. simpl. lia.
  - apply Hall. left. reflexivity.
Defined.

(** X21.  [get_last_n_games] never fails: for a name that is not in the
    player table it returns the empty list; for a known player it returns a
    suffix of the player's game log, of length [min(n, len)] for a count of
    at least 1, and the whole log for the count 0. *)
Theorem last_n_games_is_a_suffix
    (players : players_dict) (player_name : string) (n : Z) :
  (get_player_data players player_name = None ->
   get_last_n_games players player_name n = []) /\
  (forall data, get_player_data players player_name = Some data ->
     (exists earlier,
        games data = (earlier ++ get_last_n_games players player_name n)%list) /\
     ((1 <= n)%Z ->
      List.length (get_last_n_games players player_name n)
      = Nat.min (Z.to_nat n) (List.length (games data))) /\
     (n = 0%Z -> get_last_n_games players player_name n = games data)).
Proof.
  unfold get_last_n_games. split.
  - intros ->. reflexivity.
  - intros data ->. split; [|split].
    + unfold slice_from. eexists. symmetry. apply firstn_skipn.
    + intros Hn.
      destruct (Z.le_ge_cases n (Z.of_nat (List.length (games data))))
        as [Hle|Hge].
      * rewrite slice_last by lia. rewrite length_skipn. lia.
      * rewrite slice_all by lia. lia.
    + intros ->. apply (slice_all _ (games data) 0). now left.
Qed.

Lemma last_n_games_is_a_suffix_witness :
  get_last_n_games
    [("A", mkplayer [[1]; [2]; [3]] [] [])] "B" 2 = [] /\
  get_last_n_games
    [("A", mkplayer [[1]; [2]; [3]] [] [])] "A" 2 = [[2]; [3]] /\
  get_last_n_games
    [("A", mkplayer [[1]; [2]; [3]] [] [])] "A" 0 = [[1]; [2]; [3]].
Proof.
  destruct (last_n_games_is_a_suffix
              [("A", mkplayer [[1]; [2]; [3]] [] [])] "B" 2) as [Hnone _].
  destruct (last_n_games_is_a_suffix
              [("A", mkplayer [[1]; [2]; [3]] [] [])] "A" 0) as [_ Hzero].
  split; [apply Hnone; reflexivity|].
  split; [reflexivity|].
  destruct (Hzero (mkplayer [[1]; [2]; [3]] [] []) eq_refl)
    as [_ [_ Hall]].
  now apply Hall.
Defined.

End RecentGames.

(** *** Sorting the players into archetypes *)

Section Categories.
Import SportsMarket ArchetypeAnalysis.

Lemma get_player_data_of_row (players : players_dict) (name : string)
    (data : player_data) :
  NoDup (map fst players) -> In (name, data) players ->
  get_player_data players name = Some data.
Proof.
  unfold get_player_data.
  induction players as [|[n d] players IH]; intros Hnd Hin; [contradiction|].
  inversion Hnd as [|? ? Hnotin Hnd']; subst.
  cbn [find fst]. destruct Hin as [Heq|Hin].
  - injection Heq as -> ->. now rewrite String.eqb_refl.
  - destruct (n =s name) eqn:E.
    + apply String.eqb_eq in E. subst n. exfalso. apply Hnotin.
      change name with (fst (name, data)). now apply in_map.
    + now apply IH.
Qed.

Lemma append_to_known_key (cats : categories) (key : string) (e : entry) :
  In key (map fst cats) ->
  exists cats',
    append_to cats key e = inr cats' /\
    map fst cats' = map fst cats /\
    Permutation (List.concat (map snd cats')) (e :: List.concat (map snd cats)) /\
    forall k l, In (k, l) cats' ->
      In (k, l) cats \/
      (k = key /\ exists l0, In (k, l0) cats /\ l = (l0 ++ [e])%list).
Proof.
  induction cats as [|[k0 l0] cats IH]; intros Hin; [contradiction|].
  cbn [append_to]. destruct (k0 =s key) eqn:E.
  - apply String.eqb_eq in E. subst k0.
    eexists. split; [reflexivity|]. split; [reflexivity|]. split.
    + cbn [map snd List.concat]. rewrite <- app_assoc. cbn [app].
      apply Permutation_sym, Permutation_middle.
    + intros k l [Heq|Hl].
      * injection Heq as <- <-. right. split; [reflexivity|].
        exists l0. split; [now left | reflexivity].
      * left. now right.
  - destruct Hin as [Hk|Hin].
    + cbn [fst] in Hk. subst k0. now rewrite String.eqb_refl in E.
    + destruct (IH Hin) as [cats' [Happ [Hkeys [Hperm Hwhere]]]].
      rewrite Happ. eexists. split; [reflexivity|]. split.
      * cbn [map fst]. now rewrite Hkeys.
      * split.
        -- cbn [map snd List.concat].
           eapply Permutation_trans;
             [apply Permutation_app_head, Hperm|].
           apply Permutation_sym, Permutation_middle.
        -- intros k l [Heq|Hl]; [left; now left|].
           destruct (Hwhere k l Hl) as [H|[Hk [l1 [Hl1 Hl']]]].
           ++ left. now right.
           ++ right. split; [exact Hk|]. exists l1. split; [now right|exact Hl'].
Qed.

Lemma category_of_is_known (avg : list R) (k : string) :
  category_of avg = inr k -> In k known_archetypes.
Proof.
  unfold category_of.
  destruct avg as [|? [|? [|? [|? [|? [|? [|? [|? ?]]]]]]]];
    try discriminate.
  intros H. injection H as <-.
  split_ifs; simpl; tauto.
Qed.

Lemma category_of_returns (avg : list R) :
  List.length avg = 7%nat -> exists k, category_of avg = inr k.
Proof.
  intros H. unfold category_of.
  destruct avg as [|? [|? [|? [|? [|? [|? [|? [|? ?]]]]]]]];
    try discriminate.
  eexists. reflexivity.
Qed.

Lemma categorize_loop_invariant (players : players_dict)
    (todo : list (string * player_data)) :
  (forall name data, In (name, data) todo ->
     get_player_data players name = Some data /\
     List.length (season_avg_2024 data) = 7%nat) ->
  forall cats,
    (forall k, In k known_archetypes -> In k (map fst cats)) ->
    correctly_labelled cats ->
    exists cats',
      categorize_loop players (map fst todo) cats = inr cats' /\
      map fst cats' = map fst cats /\
      Permutation (List.concat (map snd cats'))
        (List.concat (map snd cats) ++ map entry_of_player todo) /\
      correctly_labelled cats'.
Proof.
  induction todo as [|[name data] todo IH]; intros Htodo cats Hkeys Hlab.
  - exists cats. split; [reflexivity|]. split; [reflexivity|].
    split; [|exact Hlab]. cbn [map]. now rewrite app_nil_r.
  - destruct (Htodo name data (or_introl eq_refl)) as [Hget Hlen].
    destruct (category_of_returns _ Hlen) as [key Hkey].
    pose proof (category_of_is_known _ _ Hkey) as Hknown.
    destruct (append_to_known_key cats key (name, season_avg_2024 data)
                (Hkeys key Hknown))
      as [cats1 [Happ [Hfst [Hperm Hwhere]]]].
    destruct (IH (fun n d H => Htodo n d (or_intror H)) cats1) as
      [cats' [Hloop [Hfst' [Hperm' Hlab']]]].
    + intros k Hk. rewrite Hfst. now apply Hkeys.
    + intros k l e Hin He.
      destruct (Hwhere k l Hin) as [Hold|[-> [l0 [Hl0 ->]]]].
      * now apply (Hlab k l e).
      * apply in_app_or in He. destruct He as [He|[<-|[]]].
        -- now apply (Hlab key l0 e).
        -- exact Hkey.
    + exists cats'. cbn [map fst categorize_loop].
      unfold categorize_one. rewrite Hget, Hkey, Happ.
      split; [exact Hloop|]. split; [now rewrite Hfst', Hfst|].
      split; [|exact Hlab'].
      eapply Permutation_trans; [exact Hperm'|].
      eapply Permutation_trans;
        [apply Permutation_app_tail, Hperm|].
      cbn [app]. apply Permutation_middle.
Qed.

(** X22.  [categorize_players] sorts every player into exactly one
    archetype.  When the archetype dictionary has the twelve known names
    among its keys and every season average of the player table (a table
    with distinct names) is a 7-tuple, the function returns; the keys of
    the result are the given ones in order; the entries of all categories
    together are the rows of the player table, each exactly once; and every
    entry sits under the key its season average selects in the cascade,
    which is one of the twelve names the pricing tables know. *)
Theorem categorize_players_partition
    (players : players_dict) (archetypes : list string)
    (Hkeys : forall k, In k known_archetypes -> In k archetypes)
    (Hnames : NoDup (map fst players))
    (Hwf : forall name data, In (name, data) players ->
             List.length (season_avg_2024 data) = 7%nat) :
  exists cats,
    categorize_players players archetypes = inr cats /\
    map fst cats = archetypes /\
    Permutation (List.concat (map snd cats)) (map entry_of_player players) /\
    forall k l e, In (k, l) cats -> In e l ->
      category_of (snd e) = inr k /\ In k known_archetypes.
Proof.
  set (start := map (fun archetype : string => (archetype, @nil entry))
                  archetypes).
  assert (Hstart_keys : map fst start = archetypes).
  { unfold start. rewrite map_map. cbn [fst]. apply map_id. }
  assert (Hstart_empty : List.concat (map snd start) = []).
  { unfold start. clear. induction archetypes; [reflexivity|].
    cbn [map snd List.concat app]. assumption. }
  assert (Hstart_lab : correctly_labelled start).
  { intros k l e Hin He. unfold start in Hin. apply in_map_iff in Hin.
    destruct Hin as [x [Heq _]]. injection Heq as _ <-. contradiction. }
  destruct (categorize_loop_invariant players players
              (fun name data H =>
                 conj (get_player_data_of_row players name data Hnames H)
                      (Hwf name data H))
              start
              ltac:(intros k Hk; rewrite Hstart_keys; now apply Hkeys)
              Hstart_lab)
    as [cats [Hloop [Hfst [Hperm Hlab]]]].
  exists cats. split; [exact Hloop|]. split; [now rewrite Hfst|].
  split; [now rewrite Hstart_empty in Hperm|].
  intros k l e Hin He. pose proof (Hlab k l e Hin He) as Hk.
  split; [exact Hk | now apply (category_of_is_known (snd e))].
Qed.

Lemma categorize_players_partition_witness :
  exists cats,
    categorize_players
      [("A", mkplayer [] [] [28; 7; 8; 3; 1; 2; 0.6]);
       ("B", mkplayer [] [] [9; 3; 2; 1; 1; 1; 0.5])]
      known_archetypes = inr cats /\
    map fst cats = known_archetypes /\
    Permutation (List.concat (map snd cats))
      [("A", [28; 7; 8; 3; 1; 2; 0.6]); ("B", [9; 3; 2; 1; 1; 1; 0.5])].
Proof.
  destruct (categorize_players_partition
              [("A", mkplayer [] [] [28; 7; 8; 3; 1; 2; 0.6]);
               ("B", mkplayer [] [] [9; 3; 2; 1; 1; 1; 0.5])]
              known_archetypes
              ltac:(intros k Hk; exact Hk)
              ltac:(repeat constructor; simpl; intuition discriminate)
              ltac:(intros name data [H|[H|[]]]; injection H as _ <-;
                    reflexivity))
    as [cats [Hc [Hk [Hp _]]]].
  exists cats. split; [exact Hc|]. split; [exact Hk | exact Hp].
Defined.

End Categories.
